(** * EXMLOPS: sentiment classifier, rolling monitor and retraining trigger

    A shallow embedding of [app.py], [monitoring.py] and [retrain.py].

    Python floats are IEEE binary64 values and are modelled by Rocq's
    primitive floats, so that thresholds, means and NaN behave as they do
    at run time.  Methods are state-passing computations over the object
    they belong to ([self]) and over the outside world (the wall clock
    and the CSV log files); a raised exception leaves the state as it was
    at the point of the raise. *)

From Stdlib Require Import Decimal DecimalString.
From Stdlib Require Import Floats List ZArith Lia String Ascii Bool PeanoNat.
Import ListNotations.
Set Warnings "-inexact-float".

Open Scope string_scope.
Open Scope list_scope.

(** ** Python values and the outside world *)

Module Py.

(** Exceptions that the modelled code can raise. *)
Inductive exn :=
| ZeroDivisionError
| IndexError
| KeyError
| ValueError.

Inductive outcome (A : Type) :=
| Ok (a : A)
| Raise (e : exn).
Arguments Ok {A} a.
Arguments Raise {A} e.

(** [datetime] objects as produced by [datetime.now()]. *)
Record datetime := mkDatetime {
  year : Z; month : Z; day : Z;
  hour : Z; minute : Z; second : Z;
  microsecond : Z
}.

(** One line of a CSV file written by [DataFrame.to_csv]. *)
Inductive cell :=
| CStr (s : string)
| CFloat (f : float).

Definition csv_row := list cell.

(** The world outside the objects: the [k]-th call of [datetime.now()]
    returns [clock k]; [files] maps a path to the rows of that file. *)
Record World := mkWorld {
  clock : nat -> datetime;
  reads : nat;
  files : list (string * list csv_row)
}.

(** A method of an object of type [S]. *)
Definition M (S A : Type) : Type := S -> World -> outcome A * S * World.

Definition ret {S A} (a : A) : M S A := fun s w => (Ok a, s, w).

Definition raise {S A} (e : exn) : M S A := fun s w => (Raise e, s, w).

Definition bind {S A B} (m : M S A) (k : A -> M S B) : M S B :=
  fun s w =>
    match m s w with
    | (Ok a, s', w') => k a s' w'
    | (Raise e, s', w') => (Raise e, s', w')
    end.

Definition get_self {S} : M S S := fun s w => (Ok s, s, w).

Definition set_self {S} (s' : S) : M S unit := fun _ w => (Ok tt, s', w).

(** Run a method of a component object held in a field of [self]. *)
Definition on_field {S T A} (proj : S -> T) (upd : T -> S -> S) (m : M T A)
  : M S A :=
  fun s w =>
    match m (proj s) w with
    | (r, t', w') => (r, upd t' s, w')
    end.

Declare Scope py_scope.
Delimit Scope py_scope with py.
Notation "x <- m ;; k" := (bind m (fun x => k))
  (at level 61, m at next level, right associativity) : py_scope.
Notation "m ;;; k" := (bind m (fun _ => k))
  (at level 61, right associativity) : py_scope.
Open Scope py_scope.

(** A [for] loop that collects one value per item. *)
Fixpoint for_each {S A B} (f : A -> M S B) (l : list A) : M S (list B) :=
  match l with
  | [] => ret []
  | a :: l' => b <- f a ;; bs <- for_each f l' ;; ret (b :: bs)
  end.

(** [datetime.now()]. *)
Definition now {S} : M S datetime :=
  fun s w => (Ok (clock w (reads w)), s,
              mkWorld (clock w) (Datatypes.S (reads w)) (files w)).

Fixpoint lookup_file (path : string) (fs : list (string * list csv_row))
  : option (list csv_row) :=
  match fs with
  | [] => None
  | (p, rows) :: fs' =>
      if String.eqb p path then Some rows else lookup_file path fs'
  end.

Fixpoint append_rows (path : string) (new : list csv_row)
                     (fs : list (string * list csv_row))
  : list (string * list csv_row) :=
  match fs with
  | [] => [(path, new)]
  | (p, rows) :: fs' =>
      if String.eqb p path then (p, rows ++ new) :: fs'
      else (p, rows) :: append_rows path new fs'
  end.

(** [os.path.exists(path)]. *)
Definition path_exists {S} (path : string) : M S bool :=
  fun s w =>
    (Ok (match lookup_file path (files w) with Some _ => true | None => false end),
     s, w).

(** [df.to_csv(path, mode='a', header=False, index=False)]: the rows of
    the frame are added at the end of the file, which is created when it
    does not exist. *)
Definition to_csv_append {S} (path : string) (rows : list csv_row) : M S unit :=
  fun s w =>
    (Ok tt, s, mkWorld (clock w) (reads w) (append_rows path rows (files w))).

(** *** Decimal fields of [strftime] *)

Local Open Scope Z_scope.

Definition digit (n : Z) : ascii := ascii_of_N (Z.to_N (48 + n mod 10)).

Definition pad2 (n : Z) : string :=
  String (digit (n / 10)) (String (digit n) "").

Definition pad4 (n : Z) : string :=
  String (digit (n / 1000)) (String (digit (n / 100)) (pad2 n)).

Definition pad6 (n : Z) : string :=
  String (digit (n / 100000)) (String (digit (n / 10000)) (pad4 n)).

(** [d.strftime("%Y-%m-%d %H:%M:%S")] *)
Definition strftime_log (d : datetime) : string :=
  (pad4 (year d) ++ "-" ++ pad2 (month d) ++ "-" ++ pad2 (day d) ++ " " ++
   pad2 (hour d) ++ ":" ++ pad2 (minute d) ++ ":" ++ pad2 (second d))%string.

(** [d.strftime('%Y%m%d_%H%M%S')] *)
Definition strftime_version (d : datetime) : string :=
  (pad4 (year d) ++ pad2 (month d) ++ pad2 (day d) ++ "_" ++
   pad2 (hour d) ++ pad2 (minute d) ++ pad2 (second d))%string.

(** [d.isoformat()]: the fraction is printed only when it is not zero. *)
Definition isoformat (d : datetime) : string :=
  (pad4 (year d) ++ "-" ++ pad2 (month d) ++ "-" ++ pad2 (day d) ++ "T" ++
   pad2 (hour d) ++ ":" ++ pad2 (minute d) ++ ":" ++ pad2 (second d) ++
   (if Z.eqb (microsecond d) 0 then "" else "." ++ pad6 (microsecond d)))%string.

Local Close Scope Z_scope.

(** The fields are in the ranges that [datetime] enforces, with a year
    of four digits. *)
Definition valid_datetime (d : datetime) : Prop :=
  (1000 <= year d <= 9999 /\ 1 <= month d <= 12 /\ 1 <= day d <= 31 /\
   0 <= hour d <= 23 /\ 0 <= minute d <= 59 /\ 0 <= second d <= 59 /\
   0 <= microsecond d <= 999999)%Z.

(** Two clock readings that fall in the same second. *)
Definition same_second (a b : datetime) : Prop :=
  year a = year b /\ month a = month b /\ day a = day b /\
  hour a = hour b /\ minute a = minute b /\ second a = second b.

(** What a call leaves behind. *)
Definition result_of {S A} (r : outcome A * S * World) : outcome A :=
  fst (fst r).
Definition self_after {S A} (r : outcome A * S * World) : S := snd (fst r).
Definition world_after {S A} (r : outcome A * S * World) : World := snd r.

(** *** Formatted string literals

    An f-string is kept as the sequence of its literal pieces and of the
    values it formats; the rendering of a float under a format
    specification is not expanded. *)
Inductive piece :=
| Lit (s : string)
| Pct2 (x : float)        (* {x:.2%} *)
| Pct1 (x : float).       (* {x:.1%} *)

Definition fstring := list piece.

(** *** [collections.deque] with [maxlen] *)

(** [d.append(x)] on a deque created with [maxlen]: the item is added on
    the right, and when that makes the deque longer than [maxlen] one
    item is dropped on the left. *)
Definition deque_append {A} (maxlen : nat) (d : list A) (x : A) : list A :=
  let d' := d ++ [x] in
  if Nat.ltb maxlen (List.length d') then tl d' else d'.

(** *** Dictionaries, in insertion order *)

Section Dict.
Context {K V : Type} (eqb : K -> K -> bool).

Definition dict := list (K * V).

Fixpoint dict_find (d : dict) (k : K) : option V :=
  match d with
  | [] => None
  | (k', v) :: d' => if eqb k' k then Some v else dict_find d' k
  end.

(** [d[k]] *)
Definition dict_get {S} (d : dict) (k : K) : M S V :=
  match dict_find d k with
  | Some v => ret v
  | None => raise KeyError
  end.

(** [d[k] = v] *)
Fixpoint dict_set (d : dict) (k : K) (v : V) : dict :=
  match d with
  | [] => [(k, v)]
  | (k', v') :: d' =>
      if eqb k' k then (k', v) :: d' else (k', v') :: dict_set d' k v
  end.

(** A dictionary display or comprehension: the items are set in order. *)
Definition dict_of (items : list (K * V)) : dict :=
  fold_left (fun d kv => dict_set d (fst kv) (snd kv)) items [].
End Dict.

(** *** Sequences *)

(** [len(l)] *)
Definition len {A} (l : list A) : nat := List.length l.

(** [l.count(x)] *)
Definition count {A} (eqb : A -> A -> bool) (x : A) (l : list A) : nat :=
  List.length (filter (fun y => eqb y x) l).

(** [l[:n]] *)
Definition slice_to {A} (n : nat) (l : list A) : list A := firstn n l.

(** [l[-n:]] for [n > 0] *)
Definition slice_last {A} (n : nat) (l : list A) : list A :=
  skipn (List.length l - n) l.

(** [l[i]] for a non-negative index. *)
Definition index {S A} (l : list A) (i : nat) : M S A :=
  match nth_error l i with
  | Some a => ret a
  | None => raise IndexError
  end.

(** *** Text

    A Python [str] is kept as its UTF-8 encoding, which is how the
    string literals of this file are read: a character is a byte that
    is not a continuation byte (10xxxxxx), followed by its continuation
    bytes. *)
Definition is_continuation (c : ascii) : bool :=
  match c with
  | Ascii _ _ _ _ _ _ b6 b7 => b7 && negb b6
  end.

(** [len(s)]: the number of characters. *)
Fixpoint str_len (s : string) : nat :=
  match s with
  | EmptyString => O
  | String c s' => if is_continuation c then str_len s' else S (str_len s')
  end.

(** [s[:n]]: the first [n] characters, all of [s] when it has fewer. *)
Fixpoint str_prefix (n : nat) (s : string) : string :=
  match s with
  | EmptyString => EmptyString
  | String c s' =>
      if is_continuation c then String c (str_prefix n s')
      else
        match n with
        | O => EmptyString
        | S n' => String c (str_prefix n' s')
        end
  end.

(** *** Numbers *)

#[local] Open Scope float_scope.

(** [float(n)] for a length or a count. *)
Definition float_of_nat (n : nat) : float :=
  PrimFloat.of_uint63 (Uint63.of_Z (Z.of_nat n)).

(** [a / b] on two Python ints: true division, which raises on a zero
    divisor.  The operands are lengths and counts, which binary64 holds
    exactly, so the quotient is the rounded quotient of the two floats. *)
Definition int_truediv {S} (a b : nat) : M S float :=
  match b with
  | O => raise ZeroDivisionError
  | _ => ret (float_of_nat a / float_of_nat b)
  end.

(** [max(a, b, ...)] over an iterable with first item [x]: a later item
    replaces the running maximum when it compares greater. *)
Definition py_max (x : float) (xs : list float) : float :=
  fold_left (fun m item => if m <? item then item else m) xs x.

End Py.

(** ** NumPy *)

Module Np.
Import Py.
#[local] Open Scope float_scope.

(** *** Summation

    NumPy adds the items of a float64 array pairwise.  A run of fewer
    than 8 items is added from left to right starting from 0.  A run of
    8 to 128 items is added in eight interleaved partial sums: the first
    eight items start them, each further block of eight items is added
    to them item by item, the eight sums are added in a balanced tree,
    and the items left over, fewer than eight, are added to that total
    from left to right.  A longer run is cut in two at half its length
    rounded down to a multiple of 8, and the sums of the two parts are
    added. *)

Definition lanes : Type :=
  float * float * float * float * float * float * float * float.

Definition lanes_total (r : lanes) : float :=
  let '(r0, r1, r2, r3, r4, r5, r6, r7) := r in
  ((r0 + r1) + (r2 + r3)) + ((r4 + r5) + (r6 + r7)).

Fixpoint add_blocks (r : lanes) (a : list float) : float :=
  match a with
  | b0 :: b1 :: b2 :: b3 :: b4 :: b5 :: b6 :: b7 :: rest =>
      let '(r0, r1, r2, r3, r4, r5, r6, r7) := r in
      add_blocks (r0 + b0, r1 + b1, r2 + b2, r3 + b3,
                  r4 + b4, r5 + b5, r6 + b6, r7 + b7) rest
  | _ => fold_left PrimFloat.add a (lanes_total r)
  end.

(** The sum of a run of at most 128 items. *)
Definition block_sum (a : list float) : float :=
  match a with
  | a0 :: a1 :: a2 :: a3 :: a4 :: a5 :: a6 :: a7 :: rest =>
      add_blocks (a0, a1, a2, a3, a4, a5, a6, a7) rest
  | _ => fold_left PrimFloat.add a 0
  end.

(** The recursion on the two parts of a long run is bounded by [fuel];
    the length of the run is enough fuel, and with enough fuel the
    result does not depend on it (lemma [pairwise_sum_fuel]). *)
Fixpoint pairwise_sum (fuel : nat) (a : list float) : float :=
  let n := List.length a in
  if Nat.leb n 128 then block_sum a
  else
    match fuel with
    | O => block_sum a
    | S fuel' =>
        let n2 := (n / 2 - (n / 2) mod 8)%nat in
        pairwise_sum fuel' (firstn n2 a) + pairwise_sum fuel' (skipn n2 a)
    end.

(** [np.sum]: the reduction starts from the identity 0 of the addition
    and adds the pairwise sum of the items to it. *)
Definition sum (l : list float) : float :=
  0 + pairwise_sum (List.length l) l.

(** [np.mean(l)]: the sum divided by the number of items; NaN on an
    empty sequence. *)
Definition mean (l : list float) : float := sum l / float_of_nat (List.length l).

(** [np.min] and [np.max] of a sequence with first item [x]; a NaN item
    makes the result NaN. *)
Definition min1 (x : float) (xs : list float) : float :=
  fold_left (fun m item =>
               if is_nan m then m
               else if is_nan item then item
               else if item <? m then item else m) xs x.

Definition max1 (x : float) (xs : list float) : float :=
  fold_left (fun m item =>
               if is_nan m then m
               else if is_nan item then item
               else if m <? item then item else m) xs x.

(** [np.min(l)] and [np.max(l)] refuse an empty sequence. *)
Definition min {S} (l : list float) : M S float :=
  match l with
  | [] => raise ValueError
  | x :: xs => ret (min1 x xs)
  end.

Definition max {S} (l : list float) : M S float :=
  match l with
  | [] => raise ValueError
  | x :: xs => ret (max1 x xs)
  end.

(** The order used by NumPy's sorts on floats: NaN sorts after every
    number. *)
Definition lt (a b : float) : bool :=
  (a <? b) || (is_nan b && negb (is_nan a)).

(** Insertion of index [vi] into the indices already sorted, which are
    kept from the largest key down: [vi] moves left past each index whose
    key is greater. *)
Fixpoint insert_desc (v : nat -> float) (vi : nat) (sorted : list nat)
  : list nat :=
  match sorted with
  | [] => [vi]
  | pk :: rest =>
      if lt (v vi) (v pk) then pk :: insert_desc v vi rest
      else vi :: pk :: rest
  end.

(** [np.argsort(a)[::-1]].  With the default [kind], NumPy's portable
    sort finishes every run of at most 16 items by insertion, taking the
    indices from left to right; an array of three scores is sorted by
    that insertion alone.  The head of the list below is the last index
    of the ascending order. *)
Definition argsort_reversed (a : list float) : list nat :=
  fold_left (fun sorted i => insert_desc (fun k => nth k a nan) i sorted)
            (seq 0 (List.length a)) [].

Definition argsort (a : list float) : list nat := rev (argsort_reversed a).

End Np.

(** ** The three classes *)

Inductive label := Negative | Neutral | Positive.

Definition label_eqb (a b : label) : bool :=
  match a, b with
  | Negative, Negative | Neutral, Neutral | Positive, Positive => true
  | _, _ => false
  end.

Definition label_name (s : label) : string :=
  match s with
  | Negative => "Negative"
  | Neutral => "Neutral"
  | Positive => "Positive"
  end.

(** The position of a label in ['Negative', 'Neutral', 'Positive']. *)
Definition label_index (s : label) : nat :=
  match s with
  | Negative => 0
  | Neutral => 1
  | Positive => 2
  end.

(** A result dictionary that has its three keys, as [predict] returns
    it.  [Monitoring.log_prediction_dict] takes a dictionary that may
    lack some of them. *)
Record PredictionResult := mkResult {
  sentiment : label;
  confidence : float;
  scores : Py.dict (K := label) (V := float)
}.

(** ** app.py *)

Module App.
Import Py.

(** [forward text] stands for lines 58-72 of [predict]: tokenizer, model
    and softmax, which give the vector of class probabilities.  The
    vector holds single-precision values, each of which is a binary64
    value. *)
Record SentimentAnalyzer := mkAnalyzer {
  model_name : string;
  device : string;
  forward : string -> list float;
  labels : list label
}.

Definition predict (text : string) : M SentimentAnalyzer PredictionResult :=
  self <- get_self ;;
  let scores := forward self text in
  let ranking := Np.argsort_reversed scores in
  r0 <- index ranking 0 ;;
  top_label <- index (labels self) r0 ;;
  r0' <- index ranking 0 ;;
  confidence <- index scores r0' ;;
  items <- for_each (fun i => l <- index (labels self) i ;;
                              x <- index scores i ;;
                              ret (l, x))
                    (seq 0 (len (labels self))) ;;
  ret (mkResult top_label confidence (dict_of label_eqb items)).

Definition predict_batch (texts : list string)
  : M SentimentAnalyzer (list PredictionResult) :=
  for_each predict texts.

(** [__init__] loads a pretrained model, whose forward pass is [fwd], and
    fixes the label list. *)
Definition init (name dev : string) (fwd : string -> list float)
  : SentimentAnalyzer :=
  mkAnalyzer name dev fwd [Negative; Neutral; Positive].

End App.

(** ** monitoring.py *)

Module Monitoring.
Import Py.
#[local] Open Scope float_scope.

Inductive alert_type := LOW_CONFIDENCE | DISTRIBUTION_DRIFT.
Inductive severity_level := WARNING | INFO.

Definition distribution := dict (K := label) (V := float).

(** An alert dictionary; only drift alerts have a
    ["current_distribution"] entry. *)
Record Alert := mkAlert {
  type : alert_type;
  severity : severity_level;
  message : fstring;
  current_distribution : option distribution;
  action : string
}.

Record SentimentMonitor := mkMonitor {
  log_file : string;
  window_size : nat;
  confidence_buffer : list float;     (* deque(maxlen=window_size) *)
  sentiment_buffer : list label;      (* deque(maxlen=window_size) *)
  confidence_threshold : float;
  drift_threshold : float;
  baseline_distribution : distribution
}.

Definition set_buffers (cb : list float) (sb : list label)
                       (self : SentimentMonitor) : SentimentMonitor :=
  mkMonitor (log_file self) (window_size self) cb sb
            (confidence_threshold self) (drift_threshold self)
            (baseline_distribution self).

Definition LABELS : list label := [Negative; Neutral; Positive].

Definition csv_header : csv_row :=
  [CStr "timestamp"; CStr "input_text"; CStr "sentiment"; CStr "confidence";
   CStr "neg_score"; CStr "neu_score"; CStr "pos_score"].

(** [SentimentMonitor(log_file, window_size)]: [new_monitor] is the
    object with the attributes that [__init__] assigns, and [init] is the
    whole constructor, which also creates the log file.  [deque] refuses
    a negative [maxlen], so the capacity is a natural number. *)
Definition new_monitor (log_file : string) (window_size : nat)
  : SentimentMonitor :=
  mkMonitor log_file window_size [] [] 0.6 0.2
            (dict_of label_eqb
               [(Negative, 0.33); (Neutral, 0.34); (Positive, 0.33)]).

Definition init (log_file : string) (window_size : nat)
  : M unit SentimentMonitor :=
  let self := new_monitor log_file window_size in
  present <- path_exists log_file ;;
  (if present then ret tt else to_csv_append log_file [csv_header]) ;;;
  ret self.

(** The distribution of the labels held in the sentiment buffer, as
    both [get_current_metrics] and [check_alerts] compute it. *)
Definition label_shares : M SentimentMonitor distribution :=
  self <- get_self ;;
  items <- for_each
             (fun s =>
                share <- int_truediv (count label_eqb s (sentiment_buffer self))
                                     (len (sentiment_buffer self)) ;;
                ret (s, share))
             LABELS ;;
  ret (dict_of label_eqb items).

Definition check_alerts : M SentimentMonitor (list Alert) :=
  self <- get_self ;;
  let alerts := [] in
  if Nat.ltb (len (confidence_buffer self)) 10 then ret alerts
  else
    let avg_conf := Np.mean (confidence_buffer self) in
    let alerts :=
      if avg_conf <? confidence_threshold self then
        alerts ++
        [mkAlert LOW_CONFIDENCE WARNING
           [Lit "Confidenza media ("; Pct2 avg_conf;
            Lit ") sotto la soglia ("; Pct2 (confidence_threshold self);
            Lit ")"]
           None
           "Considerare retraining del modello"]
      else alerts in
    current_dist <- label_shares ;;
    drifts <- for_each
                (fun s =>
                   cur <- dict_get label_eqb current_dist s ;;
                   base <- dict_get label_eqb (baseline_distribution self) s ;;
                   ret (abs (cur - base)))
                LABELS ;;
    max_drift <- match drifts with
                 | [] => raise ValueError
                 | d :: ds => ret (py_max d ds)
                 end ;;
    let alerts :=
      if drift_threshold self <? max_drift then
        alerts ++
        [mkAlert DISTRIBUTION_DRIFT INFO
           [Lit "Drift rilevato nella distribuzione ("; Pct2 max_drift; Lit ")"]
           (Some current_dist)
           "Verificare se i dati in input sono cambiati"]
      else alerts in
    ret alerts.

Definition log_prediction (text : string) (result : PredictionResult)
  : M SentimentMonitor (list Alert) :=
  d <- now ;;
  let timestamp := strftime_log d in
  self <- get_self ;;
  set_self (set_buffers
              (deque_append (window_size self) (confidence_buffer self)
                            (confidence result))
              (sentiment_buffer self) self) ;;;
  self <- get_self ;;
  set_self (set_buffers
              (confidence_buffer self)
              (deque_append (window_size self) (sentiment_buffer self)
                            (sentiment result))
              self) ;;;
  self <- get_self ;;
  neg <- dict_get label_eqb (scores result) Negative ;;
  neu <- dict_get label_eqb (scores result) Neutral ;;
  pos <- dict_get label_eqb (scores result) Positive ;;
  to_csv_append (log_file self)
    [[CStr timestamp; CStr (str_prefix 200 text);
      CStr (label_name (sentiment result)); CFloat (confidence result);
      CFloat neg; CFloat neu; CFloat pos]] ;;;
  alerts <- check_alerts ;;
  ret alerts.

(** [log_prediction] on any dictionary.  [PredictionResult] holds the
    dictionaries that have the three keys, as [predict] builds them; a
    caller may pass a dictionary that lacks some of them, and each
    subscript [result[key]] then raises [KeyError] where it is
    evaluated. *)
Record ResultDict := mkResultDict {
  item_sentiment : option label;                          (* 'sentiment' *)
  item_confidence : option float;                         (* 'confidence' *)
  item_scores : option (dict (K := label) (V := float))   (* 'scores' *)
}.

(** [result[key]] *)
Definition item {S A} (value : option A) : M S A :=
  match value with
  | Some a => ret a
  | None => raise KeyError
  end.

Definition as_dict (r : PredictionResult) : ResultDict :=
  mkResultDict (Some (sentiment r)) (Some (confidence r)) (Some (scores r)).

Definition log_prediction_dict (text : string) (result : ResultDict)
  : M SentimentMonitor (list Alert) :=
  d <- now ;;
  let timestamp := strftime_log d in
  c <- item (item_confidence result) ;;
  self <- get_self ;;
  set_self (set_buffers
              (deque_append (window_size self) (confidence_buffer self) c)
              (sentiment_buffer self) self) ;;;
  s <- item (item_sentiment result) ;;
  self <- get_self ;;
  set_self (set_buffers
              (confidence_buffer self)
              (deque_append (window_size self) (sentiment_buffer self) s)
              self) ;;;
  self <- get_self ;;
  row_sentiment <- item (item_sentiment result) ;;
  row_confidence <- item (item_confidence result) ;;
  sc <- item (item_scores result) ;;
  neg <- dict_get label_eqb sc Negative ;;
  sc <- item (item_scores result) ;;
  neu <- dict_get label_eqb sc Neutral ;;
  sc <- item (item_scores result) ;;
  pos <- dict_get label_eqb sc Positive ;;
  to_csv_append (log_file self)
    [[CStr timestamp; CStr (str_prefix 200 text);
      CStr (label_name row_sentiment); CFloat row_confidence;
      CFloat neg; CFloat neu; CFloat pos]] ;;;
  alerts <- check_alerts ;;
  ret alerts.

(** The dictionary returned by [get_current_metrics]. *)
Inductive Metrics :=
| MetricsNoData (status message : string)
| MetricsOk (status : string) (total_predictions : nat)
            (avg_confidence min_confidence max_confidence : float)
            (sentiment_distribution : distribution) (timestamp : string).

Definition get_current_metrics : M SentimentMonitor Metrics :=
  self <- get_self ;;
  if Nat.eqb (len (confidence_buffer self)) 0 then
    ret (MetricsNoData "no_data" "Nessun dato disponibile")
  else
    sentiment_counts <- label_shares ;;
    lo <- Np.min (confidence_buffer self) ;;
    hi <- Np.max (confidence_buffer self) ;;
    d <- now ;;
    ret (MetricsOk "ok" (len (confidence_buffer self))
           (Np.mean (confidence_buffer self)) lo hi
           sentiment_counts (strftime_log d)).

Definition should_retrain : M SentimentMonitor (bool * fstring) :=
  self <- get_self ;;
  if Nat.ltb (len (confidence_buffer self)) (window_size self) then
    ret (false, [Lit "Dati insufficienti per la valutazione"])
  else
    let avg_conf := Np.mean (confidence_buffer self) in
    if avg_conf <? 0.5 then
      ret (true, [Lit "Confidenza critica: "; Pct2 avg_conf])
    else
      let recent := slice_last 20 (confidence_buffer self) in
      let older := slice_to 20 (confidence_buffer self) in
      if Np.mean recent <? Np.mean older - 0.1 then
        ret (true, [Lit "Trend negativo della confidenza rilevato"])
      else
        ret (false, [Lit "Performance nella norma"]).

Definition severity_name (s : severity_level) : string :=
  match s with
  | WARNING => "WARNING"
  | INFO => "INFO"
  end.

(** The line feed, and ["=" * n]. *)
Definition nl : string := String (ascii_of_nat 10) "".

Fixpoint bar (n : nat) : string :=
  match n with
  | O => ""
  | S k => String.append "=" (bar k)
  end.

(** [str(n)] of a length. *)
Definition str_of_nat (n : nat) : string :=
  NilEmpty.string_of_uint (Nat.to_uint n).

(** ["\n".join(lines)] *)
Fixpoint join_lines (lines : list fstring) : fstring :=
  match lines with
  | [] => []
  | [l] => l
  | l :: ls => l ++ Lit nl :: join_lines ls
  end.

(** [get_summary_report]: the three queries, then the lines of the
    report.  [metrics.get(key, default)] gives the default when the
    dictionary is the "no_data" one, which has none of the keys read
    here. *)
Definition get_summary_report : M SentimentMonitor fstring :=
  metrics <- get_current_metrics ;;
  alerts <- check_alerts ;;
  verdict <- should_retrain ;;
  let '(retrain_needed, retrain_reason) := verdict in
  let report :=
    [ [Lit (String.append nl (bar 60))];
      [Lit "📊 MONITORING REPORT - MachineInnovators Inc."];
      [Lit (bar 60)];
      [Lit (String.append nl "⏰ Timestamp: ");
       Lit (match metrics with
            | MetricsOk _ _ _ _ _ _ ts => ts
            | MetricsNoData _ _ => "N/A"
            end)];
      [Lit "📈 Predizioni totali (finestra): ";
       Lit (str_of_nat (match metrics with
                        | MetricsOk _ n _ _ _ _ _ => n
                        | MetricsNoData _ _ => 0
                        end))];
      [Lit (String.append nl "🎯 PERFORMANCE METRICHE:")];
      [Lit "   • Confidenza media: ";
       Pct2 (match metrics with
             | MetricsOk _ _ avg _ _ _ _ => avg
             | MetricsNoData _ _ => 0
             end)];
      [Lit "   • Confidenza min/max: ";
       Pct2 (match metrics with
             | MetricsOk _ _ _ lo _ _ _ => lo
             | MetricsNoData _ _ => 0
             end);
       Lit " / ";
       Pct2 (match metrics with
             | MetricsOk _ _ _ _ hi _ _ => hi
             | MetricsNoData _ _ => 0
             end)];
      [Lit (String.append nl "📊 DISTRIBUZIONE SENTIMENT:")] ] in
  let report :=
    report ++
    match metrics with
    | MetricsOk _ _ _ _ _ dist _ =>
        map (fun item => [Lit "   • "; Lit (label_name (fst item));
                          Lit ": "; Pct1 (snd item)])
            dist
    | MetricsNoData _ _ => []
    end in
  let report :=
    report ++ [[Lit (String.append nl "⚠️ ALERT ATTIVI: ");
                Lit (str_of_nat (len alerts))]] in
  let report :=
    report ++
    map (fun alert => [Lit "   ["; Lit (severity_name (severity alert));
                       Lit "] "] ++ message alert)
        alerts in
  let report :=
    report ++
    [[Lit (String.append nl "🔄 RETRAINING: ");
      Lit (if retrain_needed then "NECESSARIO" else "Non necessario")]] in
  let report := report ++ [Lit "   Motivo: " :: retrain_reason] in
  let report := report ++ [[Lit (String.append nl (bar 60))]] in
  ret (join_lines report).

End Monitoring.

(** ** retrain.py *)

Module Retrain.
Import Py.
Import Monitoring.
#[local] Open Scope float_scope.

Record RetrainMetrics := mkRetrainMetrics {
  accuracy_before : float;
  accuracy_after : float;
  improvement : string
}.

(** The dictionary built by [_simulate_retraining]. *)
Record RetrainRecord := mkRecord {
  status : string;
  timestamp : string;
  metrics : RetrainMetrics;
  model_version : string
}.

(** What [check_and_retrain] returns. *)
Inductive RetrainOutcome :=
| Skipped (status : string) (reason : fstring) (timestamp : string)
| Retrained (r : RetrainRecord).

(** The manager keeps a reference to the monitor, which it only reads,
    and owns the history list. *)
Record RetrainingManager := mkManager {
  monitor : SentimentMonitor;
  retraining_history : list RetrainRecord
}.

Definition set_monitor (m : SentimentMonitor) (self : RetrainingManager)
  : RetrainingManager :=
  mkManager m (retraining_history self).

Definition init (monitor : SentimentMonitor) : RetrainingManager :=
  mkManager monitor [].

(** The four progress lines that the method prints are left out. *)
Definition _simulate_retraining : M RetrainingManager RetrainRecord :=
  t1 <- now ;;
  t2 <- now ;;
  ret (mkRecord "completed" (isoformat t1)
         (mkRetrainMetrics 0.72 0.75 "+3%")
         (String.append "v" (strftime_version t2))).

Definition check_and_retrain : M RetrainingManager RetrainOutcome :=
  verdict <- on_field monitor set_monitor should_retrain ;;
  let '(should_retrain, reason) := verdict in
  if negb should_retrain then
    t <- now ;;
    ret (Skipped "skipped" reason (isoformat t))
  else
    result <- _simulate_retraining ;;
    self <- get_self ;;
    set_self (mkManager (monitor self) (retraining_history self ++ [result])) ;;;
    ret (Retrained result).

Definition get_retraining_history
  : M RetrainingManager (list RetrainRecord) :=
  self <- get_self ;;
  ret (retraining_history self).

End Retrain.

(** ** Callers and properties used in the statements *)

Module Scenario.
Import Py Monitoring Retrain.
#[local] Open Scope float_scope.

(** Successive calls of [log_prediction], as the loops at the end of
    [monitoring.py] and [retrain.py] make them; the state is followed
    through the calls whatever each of them returns. *)
Fixpoint after_calls (rs : list (string * PredictionResult))
                     (m : SentimentMonitor) (w : World)
  : SentimentMonitor * World :=
  match rs with
  | [] => (m, w)
  | (text, r) :: rs' =>
      let out := log_prediction text r m w in
      after_calls rs' (self_after out) (world_after out)
  end.

(** The window of a monitor. *)
Definition window (m : SentimentMonitor) : list float * list label :=
  (confidence_buffer m, sentiment_buffer m).

(** The configuration of a monitor. *)
Definition config (m : SentimentMonitor)
  : distribution * float * float * nat :=
  (baseline_distribution m, confidence_threshold m, drift_threshold m,
   window_size m).

(** A world whose clock advances by one second at each reading and whose
    file system is empty. *)
Definition ticking_world : World :=
  mkWorld (fun k => mkDatetime 2024 5 17 10 30 (Z.of_nat k mod 60) 0) 0 [].

(** A world in which successive readings of the clock fall in the same
    second. *)
Definition fast_world : World :=
  mkWorld (fun k => mkDatetime 2024 5 17 10 30 12 (Z.of_nat k)) 0 [].

(** A monitor as its constructor leaves it, with the world after the
    constructor has run. *)
Definition fresh (path : string) (capacity : nat) (w : World)
  : SentimentMonitor * World :=
  (new_monitor path capacity,
   world_after (Monitoring.init path capacity tt w)).

(** [n] recordings of the same label and confidence in a fresh monitor
    of the given capacity. *)
Definition recorded (capacity n : nat) (s : label) (c : float)
  : SentimentMonitor * World :=
  let start := fresh "monitoring_logs.csv" capacity ticking_world in
  after_calls (repeat ("Test", mkResult s c
                         (dict_of label_eqb
                            [(Negative, 0.25); (Neutral, 0.45);
                             (Positive, 0.30)])) n)
              (fst start) (snd start).

(** A well-formed result with the given label and confidence. *)
Definition sample (s : label) (c : float) : PredictionResult :=
  mkResult s c
    (dict_of label_eqb [(Negative, 0.25); (Neutral, 0.45); (Positive, 0.30)]).

(** A method leaves a part [f] of its object as it found it. *)
Definition preserves {S A T} (f : S -> T) (m : M S A) : Prop :=
  forall s w, f (self_after (m s w)) = f s.

(** A method has no effect: it returns the same result in every world
    and leaves its object and the world as they were. *)
Definition effect_free {S A} (m : M S A) : Prop :=
  forall s w w0, m s w = (result_of (m s w0), s, w).

(** The score of a label in a vector of class scores. *)
Definition score_of (scores : list float) (l : label) : float :=
  nth (label_index l) scores nan.

(** [l] has the greatest score. *)
Definition is_argmax (scores : list float) (l : label) : Prop :=
  forall l', (score_of scores l' <=? score_of scores l) = true.

(** Among the labels that share the score of [l], [l] comes first. *)
Definition first_among_ties (scores : list float) (l : label) : Prop :=
  forall l', (score_of scores l' =? score_of scores l) = true ->
             label_index l <= label_index l'.

(** Among the labels that share the score of [l], [l] comes last. *)
Definition last_among_ties (scores : list float) (l : label) : Prop :=
  forall l', (score_of scores l' =? score_of scores l) = true ->
             label_index l' <= label_index l.

(** Scores that are not a probability distribution: a key is missing, a
    score is NaN, or the sum is further than 1e-5 from 1. *)
Definition malformed (r : PredictionResult) : bool :=
  match dict_find label_eqb (scores r) Negative,
        dict_find label_eqb (scores r) Neutral,
        dict_find label_eqb (scores r) Positive with
  | Some a, Some b, Some c =>
      is_nan a || is_nan b || is_nan c ||
      negb (abs (0 + a + b + c - 1) <=? 0.00001)
  | _, _, _ => true
  end.

(** A full window of capacity 100 whose 20 oldest confidences are 0.9
    and whose 80 newest are 0.1. *)
Definition declining : SentimentMonitor * World :=
  let start := fresh "monitoring_logs.csv" 100 ticking_world in
  after_calls (repeat ("Test", sample Positive 0.9) 20 ++
               repeat ("Test", sample Negative 0.1) 80)
              (fst start) (snd start).

(** A manager whose monitor has a full window of mean confidence
    0.45. *)
Definition critical_manager : RetrainingManager :=
  Retrain.init (fst (recorded 100 100 Neutral 0.45)).

(** An analyzer whose model gives the first two classes the same
    probability. *)
Definition tied_analyzer : App.SentimentAnalyzer :=
  App.init "cardiffnlp/twitter-roberta-base-sentiment-latest" "cpu"
           (fun _ => [0.4; 0.4; 0.2]).

(** The label at a position of ['Negative', 'Neutral', 'Positive']. *)
Definition label_at (i : nat) : label :=
  match i with
  | 0 => Negative
  | 1 => Neutral
  | _ => Positive
  end.

(** NaN as a specification-level float. *)
Definition SFis_nan (x : spec_float) : bool :=
  match x with
  | S754_nan => true
  | _ => false
  end.

(** A comparison that says "at most". *)
Definition at_most (c : option comparison) : Prop :=
  c = Some Lt \/ c = Some Eq.

(** Two calls of [check_and_retrain] in sequence. *)
Definition first_call (mgr : RetrainingManager) (w : World) :=
  check_and_retrain mgr w.

Definition second_call (mgr : RetrainingManager) (w : World) :=
  check_and_retrain (self_after (first_call mgr w))
                    (world_after (first_call mgr w)).

(** A result whose scores hold a NaN, and one whose scores sum to 2.7. *)
Definition nan_result : PredictionResult :=
  mkResult Negative nan
    (dict_of label_eqb [(Negative, nan); (Neutral, 0.3); (Positive, 0.2)]).

Definition unnormalised_result : PredictionResult :=
  mkResult Positive 0.9
    (dict_of label_eqb [(Negative, 0.9); (Neutral, 0.9); (Positive, 0.9)]).

(** The drift alert raised when every label in the window is
    [Positive]. *)
Definition all_positive_drift : Alert :=
  mkAlert DISTRIBUTION_DRIFT INFO
    [Lit "Drift rilevato nella distribuzione ("; Pct2 (abs (1 - 0.33));
     Lit ")"]
    (Some [(Negative, 0); (Neutral, 0); (Positive, 1)])
    "Verificare se i dati in input sono cambiati".

(** The low-confidence alert for a window of mean [avg] under the
    default threshold. *)
Definition low_confidence_alert (avg : float) : Alert :=
  mkAlert LOW_CONFIDENCE WARNING
    [Lit "Confidenza media ("; Pct2 avg; Lit ") sotto la soglia (";
     Pct2 0.6; Lit ")"]
    None
    "Considerare retraining del modello".

(** An analyzer whose model gives three scores, except on the empty
    text, on which it gives none. *)
Definition picky_analyzer : App.SentimentAnalyzer :=
  App.init "roberta" "cpu"
    (fun text => if String.eqb text "" then [] else [0.1; 0.2; 0.7]).

(** A result whose scores have no entry for [Positive]. *)
Definition two_score_result : PredictionResult :=
  mkResult Neutral 0.55
    (dict_of label_eqb [(Negative, 0.45); (Neutral, 0.55)]).

(** A monitor whose baseline was replaced by one without [Neutral],
    after [n] recordings of confidence 0.9. *)
Definition two_label_baseline (n : nat) : SentimentMonitor :=
  let m := fst (recorded 100 n Positive 0.9) in
  mkMonitor (log_file m) (window_size m) (confidence_buffer m)
            (sentiment_buffer m) (confidence_threshold m) (drift_threshold m)
            (dict_of label_eqb [(Negative, 0.5); (Positive, 0.5)]).

(** The window of capacity 20 after 19 recordings of confidence 0.1
    and one recording of the result with NaN scores. *)
Definition poisoned : SentimentMonitor * World :=
  let start := fresh "monitoring_logs.csv" 20 ticking_world in
  after_calls (repeat ("Test", sample Negative 0.1) 19 ++
               [("Test", nan_result)])
              (fst start) (snd start).

(** The report on a window without data. *)
Definition cold_start_report : fstring :=
  join_lines
    [ [Lit (String.append nl (bar 60))];
      [Lit "📊 MONITORING REPORT - MachineInnovators Inc."];
      [Lit (bar 60)];
      [Lit (String.append nl "⏰ Timestamp: "); Lit "N/A"];
      [Lit "📈 Predizioni totali (finestra): "; Lit "0"];
      [Lit (String.append nl "🎯 PERFORMANCE METRICHE:")];
      [Lit "   • Confidenza media: "; Pct2 0];
      [Lit "   • Confidenza min/max: "; Pct2 0; Lit " / "; Pct2 0];
      [Lit (String.append nl "📊 DISTRIBUZIONE SENTIMENT:")];
      [Lit (String.append nl "⚠️ ALERT ATTIVI: "); Lit "0"];
      [Lit (String.append nl "🔄 RETRAINING: "); Lit "Non necessario"];
      [Lit "   Motivo: "; Lit "Dati insufficienti per la valutazione"];
      [Lit (String.append nl (bar 60))] ].

(** One of the eight partial sums is NaN. *)
Definition lanes_nan (r : Np.lanes) : Prop :=
  let '(r0, r1, r2, r3, r4, r5, r6, r7) := r in
  is_nan r0 = true \/ is_nan r1 = true \/ is_nan r2 = true \/
  is_nan r3 = true \/ is_nan r4 = true \/ is_nan r5 = true \/
  is_nan r6 = true \/ is_nan r7 = true.

(** A text of [n] accented letters, two bytes each. *)
Fixpoint accented (n : nat) : string :=
  match n with
  | O => ""
  | S k => String.append "é" (accented k)
  end.

(** A dictionary with a confidence and scores and no sentiment. *)
Definition no_sentiment_dict : ResultDict :=
  mkResultDict None (Some 0.9)
    (Some (dict_of label_eqb
             [(Negative, 0.05); (Neutral, 0.05); (Positive, 0.9)])).

(** Full windows of capacity 100 whose mean is at the critical
    threshold: 50 confidences of 0.1 followed by 50 of 0.9, and the
    same in the other order. *)
Definition rising : SentimentMonitor * World :=
  let start := fresh "monitoring_logs.csv" 100 ticking_world in
  after_calls (repeat ("Test", sample Negative 0.1) 50 ++
               repeat ("Test", sample Positive 0.9) 50)
              (fst start) (snd start).

Definition falling : SentimentMonitor * World :=
  let start := fresh "monitoring_logs.csv" 100 ticking_world in
  after_calls (repeat ("Test", sample Positive 0.9) 50 ++
               repeat ("Test", sample Negative 0.1) 50)
              (fst start) (snd start).

(** A result whose scores have the three labels. *)
Definition well_keyed (r : PredictionResult) : Prop :=
  exists a b c,
    dict_find label_eqb (scores r) Negative = Some a /\
    dict_find label_eqb (scores r) Neutral = Some b /\
    dict_find label_eqb (scores r) Positive = Some c.

(** The two buffers have the same length, within the capacity. *)
Definition window_ok (m : SentimentMonitor) : Prop :=
  len (confidence_buffer m) = len (sentiment_buffer m) /\
  len (confidence_buffer m) <= window_size m.

(** The baseline gives a share to each of the three labels. *)
Definition baseline_ok (m : SentimentMonitor) : Prop :=
  exists a b c,
    dict_find label_eqb (baseline_distribution m) Negative = Some a /\
    dict_find label_eqb (baseline_distribution m) Neutral = Some b /\
    dict_find label_eqb (baseline_distribution m) Positive = Some c.

(** The share of a label in the sentiment buffer, and its distance to
    the share [base] of the baseline, as [check_alerts] computes them. *)
Definition share (m : SentimentMonitor) (s : label) : float :=
  float_of_nat (count label_eqb s (sentiment_buffer m))
  / float_of_nat (len (sentiment_buffer m)).

Definition drift (m : SentimentMonitor) (s : label) (base : float) : float :=
  abs (share m s - base).

(** The two alerts of [check_alerts] on a monitor, the second for a
    greatest distance [max_drift]. *)
Definition low_alert (m : SentimentMonitor) : Alert :=
  mkAlert LOW_CONFIDENCE WARNING
    [Lit "Confidenza media ("; Pct2 (Np.mean (confidence_buffer m));
     Lit ") sotto la soglia ("; Pct2 (confidence_threshold m); Lit ")"]
    None
    "Considerare retraining del modello".

Definition drift_alert (m : SentimentMonitor) (max_drift : float) : Alert :=
  mkAlert DISTRIBUTION_DRIFT INFO
    [Lit "Drift rilevato nella distribuzione ("; Pct2 max_drift; Lit ")"]
    (Some (map (fun s => (s, share m s)) LABELS))
    "Verificare se i dati in input sono cambiati".

(** An alert of the given type is in the list. *)
Definition has_alert (t : alert_type) (alerts : list Alert) : Prop :=
  exists a, In a alerts /\ type a = t.

(** [n] calls of [check_and_retrain] in sequence. *)
Fixpoint retrain_calls (n : nat) (mgr : RetrainingManager) (w : World)
  : RetrainingManager * World :=
  match n with
  | O => (mgr, w)
  | S k =>
      let out := check_and_retrain mgr w in
      retrain_calls k (self_after out) (world_after out)
  end.

(** The rows of a file, none when the file does not exist. *)
Definition rows_of (path : string) (w : World) : list csv_row :=
  match lookup_file path (files w) with
  | Some rows => rows
  | None => []
  end.

End Scenario.

(** * Properties *)

Import Py Scenario.

(** ** Methods without effect *)

Section EffectFree.
Context {S : Type}.

Lemma effect_free_ret A (a : A) : effect_free (@ret S A a).
Proof. intros s w w0; reflexivity. Qed.

Lemma effect_free_raise A e : effect_free (@raise S A e).
Proof. intros s w w0; reflexivity. Qed.

Lemma effect_free_get_self : effect_free (@get_self S).
Proof. intros s w w0; reflexivity. Qed.

Lemma effect_free_bind A B (m : M S A) (k : A -> M S B) :
  effect_free m -> (forall a, effect_free (k a)) -> effect_free (bind m k).
Proof.
  intros Hm Hk s w w0. unfold bind.
  rewrite (Hm s w w0), (Hm s w0 w0).
  destruct (result_of (m s w0)) as [a|e]; [apply Hk|reflexivity].
Qed.

Lemma effect_free_index A (l : list A) i : effect_free (@index S A l i).
Proof. unfold index; destruct (nth_error l i); intros s w w0; reflexivity. Qed.

Lemma effect_free_dict_get K V (eqb : K -> K -> bool) (d : dict) k :
  effect_free (@dict_get K V eqb S d k).
Proof.
  unfold dict_get; destruct (dict_find eqb d k); intros s w w0; reflexivity.
Qed.

Lemma effect_free_truediv a b : effect_free (@int_truediv S a b).
Proof. destruct b; intros s w w0; reflexivity. Qed.

Lemma effect_free_for_each A B (g : A -> M S B) l :
  (forall a, effect_free (g a)) -> effect_free (for_each g l).
Proof.
  intros Hg. induction l as [|a l IH]; cbn [for_each].
  - apply effect_free_ret.
  - apply effect_free_bind; [apply Hg|intro b].
    apply effect_free_bind; [exact IH|intro bs]. apply effect_free_ret.
Qed.

Lemma effect_free_result A (m : M S A) s w w' :
  effect_free m -> result_of (m s w) = result_of (m s w').
Proof. intros H. rewrite (H s w w'). reflexivity. Qed.

Lemma effect_free_self A (m : M S A) s w :
  effect_free m -> self_after (m s w) = s.
Proof. intros H. rewrite (H s w w). reflexivity. Qed.
End EffectFree.

Create HintDb frame.
#[export] Hint Resolve effect_free_ret effect_free_raise effect_free_get_self
  effect_free_index effect_free_dict_get effect_free_truediv : frame.

Ltac effect_free :=
  repeat first
    [ progress auto with frame
    | apply effect_free_bind; [|intro]
    | apply effect_free_for_each; intro
    | match goal with
      | |- effect_free (if ?b then _ else _) => destruct b
      | |- effect_free (match ?x with _ => _ end) => destruct x
      end ].

Lemma label_shares_effect_free : effect_free Monitoring.label_shares.
Proof. unfold Monitoring.label_shares. effect_free. Qed.

Lemma check_alerts_effect_free : effect_free Monitoring.check_alerts.
Proof.
  unfold Monitoring.check_alerts.
  apply effect_free_bind; [auto with frame|intro self].
  destruct (Nat.ltb _ 10); [auto with frame|].
  apply effect_free_bind; [apply label_shares_effect_free|intro].
  effect_free.
Qed.

Lemma should_retrain_effect_free : effect_free Monitoring.should_retrain.
Proof. unfold Monitoring.should_retrain. effect_free. Qed.

(** The shares that [label_shares] returns. *)
Lemma label_shares_result m w :
  result_of (Monitoring.label_shares m w) =
  match len (Monitoring.sentiment_buffer m) with
  | O => Raise ZeroDivisionError
  | n =>
      Ok (map (fun s => (s, (float_of_nat
                               (count label_eqb s (Monitoring.sentiment_buffer m))
                             / float_of_nat n)%float))
              Monitoring.LABELS)
  end.
Proof.
  unfold Monitoring.label_shares, Monitoring.LABELS, result_of.
  cbv [bind get_self for_each ret raise int_truediv].
  destruct (len (Monitoring.sentiment_buffer m)); reflexivity.
Qed.

(** ** Methods that leave their object alone *)

Section Frames.
Context {S T : Type} (f : S -> T).

Lemma preserves_ret A (a : A) : preserves f (ret a).
Proof. intros s w; reflexivity. Qed.

Lemma preserves_get_self : preserves f (@get_self S).
Proof. intros s w; reflexivity. Qed.

Lemma preserves_now : preserves f (@now S).
Proof. intros s w; reflexivity. Qed.

Lemma preserves_bind A B (m : M S A) (k : A -> M S B) :
  preserves f m -> (forall a, preserves f (k a)) -> preserves f (bind m k).
Proof.
  intros Hm Hk s w. unfold bind.
  specialize (Hm s w). unfold self_after in *.
  destruct (m s w) as [[[a|e] s'] w']; cbn in *.
  - rewrite <- Hm. apply (Hk a s' w').
  - exact Hm.
Qed.

Lemma preserves_np_min l : preserves f (@Np.min S l).
Proof. destruct l; intros s w; reflexivity. Qed.

Lemma preserves_np_max l : preserves f (@Np.max S l).
Proof. destruct l; intros s w; reflexivity. Qed.

Lemma effect_free_preserves A (m : M S A) : effect_free m -> preserves f m.
Proof. intros H s w. rewrite (effect_free_self _ m s w H). reflexivity. Qed.
End Frames.

#[export] Hint Resolve preserves_ret preserves_get_self preserves_now
  preserves_np_min preserves_np_max : frame.

(** [get_current_metrics] reads the clock and nothing else. *)
Lemma get_current_metrics_read_only :
  preserves (fun m => m) Monitoring.get_current_metrics.
Proof.
  unfold Monitoring.get_current_metrics.
  apply preserves_bind; [auto with frame|intro self].
  destruct (Nat.eqb _ 0); [auto with frame|].
  apply preserves_bind;
    [apply effect_free_preserves, label_shares_effect_free|intro].
  repeat (apply preserves_bind; [auto with frame|intro]).
  auto with frame.
Qed.

(** ** The order of floats *)

Ltac compare_cases :=
  repeat match goal with
  | |- context [Pos.compare_cont Eq ?a ?b] =>
      change (Pos.compare_cont Eq a b) with (Pos.compare a b)
  end;
  repeat match goal with
  | |- context [Z.compare ?a ?b] => destruct (Z.compare_spec a b)
  | |- context [Pos.compare ?a ?b] => destruct (Pos.compare_spec a b)
  end.

Lemma SFcompare_swap x y :
  SFcompare y x = option_map CompOpp (SFcompare x y).
Proof.
  destruct x as [s|s| |s m e], y as [s'|s'| |s' m' e'];
    try destruct s; try destruct s'; cbn; try reflexivity.
  all: compare_cases; cbn; try reflexivity; lia.
Qed.

Lemma SFcompare_at_most_trans x y z :
  at_most (SFcompare x y) -> at_most (SFcompare y z) ->
  at_most (SFcompare x z).
Proof.
  unfold at_most.
  destruct x as [s|s| |s m e], y as [s'|s'| |s' m' e'],
           z as [s''|s''| |s'' m'' e''];
    try destruct s; try destruct s'; try destruct s''; cbn; try tauto;
    try (intros [?|?] [?|?]; discriminate).
  all: compare_cases; cbn; try tauto;
    try (intros [?|?] [?|?]; discriminate); lia.
Qed.

Lemma SFcompare_nan x y :
  SFcompare x y = None <-> SFis_nan x = true \/ SFis_nan y = true.
Proof.
  destruct x as [s|s| |s m e], y as [s'|s'| |s' m' e'];
    try destruct s; try destruct s'; cbn; intuition discriminate.
Qed.

Lemma is_nan_spec x : is_nan x = SFis_nan (Prim2SF x).
Proof.
  unfold is_nan. rewrite FloatAxioms.eqb_spec. unfold SFeqb.
  destruct (Prim2SF x) as [s|s| |s m e]; try destruct s; cbn;
    try reflexivity.
  all: rewrite Z.compare_refl, Pos.compare_cont_refl; reflexivity.
Qed.

(** Not less in NumPy's order means at least, NaN being the greatest. *)
Lemma np_not_lt x y :
  Np.lt x y = false <->
  SFis_nan (Prim2SF x) = true \/
  (SFis_nan (Prim2SF y) = false /\
   at_most (SFcompare (Prim2SF y) (Prim2SF x))).
Proof.
  unfold Np.lt, at_most. rewrite ltb_spec, !is_nan_spec. unfold SFltb.
  rewrite (SFcompare_swap (Prim2SF x) (Prim2SF y)).
  pose proof (SFcompare_nan (Prim2SF x) (Prim2SF y)) as Hn.
  destruct (SFis_nan (Prim2SF x)) eqn:Ex, (SFis_nan (Prim2SF y)) eqn:Ey,
           (SFcompare (Prim2SF x) (Prim2SF y)) as [[| |]|] eqn:Ec;
    cbn; intuition (try discriminate).
Qed.

Lemma np_lt_irrefl x : Np.lt x x = false.
Proof.
  apply np_not_lt.
  destruct (SFis_nan (Prim2SF x)) eqn:E; [auto|right; split; [reflexivity|]].
  unfold at_most. right.
  destruct (Prim2SF x) as [s|s| |s m e]; try destruct s; cbn in *;
    try reflexivity; try discriminate.
  all: rewrite Z.compare_refl, Pos.compare_cont_refl; reflexivity.
Qed.

Lemma np_lt_asym x y : Np.lt x y = true -> Np.lt y x = false.
Proof.
  intros H. apply np_not_lt.
  unfold Np.lt in H. rewrite ltb_spec, !is_nan_spec in H. unfold SFltb in H.
  destruct (SFcompare (Prim2SF x) (Prim2SF y)) as [[| |]|] eqn:Ec;
    cbn in H; try (apply andb_prop in H as [H _]; auto).
  right. split; [|left; reflexivity].
  destruct (SFis_nan (Prim2SF x)) eqn:Ex; [|reflexivity].
  assert (SFcompare (Prim2SF x) (Prim2SF y) = None)
    by (apply SFcompare_nan; auto).
  congruence.
Qed.

Lemma np_lt_negtrans x y z :
  Np.lt x y = false -> Np.lt y z = false -> Np.lt x z = false.
Proof.
  rewrite !np_not_lt. intros [Hx|[Hy Hxy]] Hyz; [auto|].
  destruct Hyz as [Hy'|[Hz Hyz]]; [congruence|].
  right. split; [exact Hz|].
  eapply SFcompare_at_most_trans; eassumption.
Qed.

Lemma np_not_lt_leb x y :
  is_nan x = false -> Np.lt x y = false -> (y <=? x)%float = true.
Proof.
  rewrite is_nan_spec, np_not_lt, leb_spec. unfold SFleb, at_most.
  intros Hx [H|[_ [H|H]]]; [congruence|rewrite H; reflexivity..].
Qed.

Lemma eqb_not_lt x y : (x =? y)%float = true -> Np.lt y x = false.
Proof.
  rewrite FloatAxioms.eqb_spec, np_not_lt. unfold SFeqb, at_most.
  destruct (SFcompare (Prim2SF x) (Prim2SF y)) as [[| |]|] eqn:E;
    try discriminate.
  intros _. right. split; [|auto].
  destruct (SFis_nan (Prim2SF x)) eqn:Ex; [|reflexivity].
  assert (SFcompare (Prim2SF x) (Prim2SF y) = None)
    by (apply SFcompare_nan; auto).
  congruence.
Qed.

(** ** The predicted class *)

(** The first index of the reversed ranking has a greatest key, and is
    the last of the indices that have that key. *)
Lemma argsort_reversed_top a :
  a <> [] ->
  exists h rest,
    Np.argsort_reversed a = h :: rest /\
    h < List.length a /\
    forall j, j < List.length a ->
      Np.lt (nth h a nan) (nth j a nan) = false /\
      (Np.lt (nth j a nan) (nth h a nan) = false -> j <= h).
Proof.
  intros Ha. unfold Np.argsort_reversed.
  set (v := fun k => nth k a nan).
  assert (Hn : List.length a <> 0) by (destruct a; cbn; congruence).
  clear Ha. revert Hn. generalize (List.length a) as n.
  induction n as [|n IH]; [congruence|intros _].
  rewrite seq_S, fold_left_app. cbn [fold_left Nat.add].
  destruct n as [|n].
  - cbn. exists 0, []. split; [reflexivity|]. split; [lia|].
    intros j Hj. replace j with 0 by lia.
    split; [apply np_lt_irrefl|lia].
  - destruct IH as (h & rest & E & Hh & Htop); [congruence|].
    rewrite E. cbn [Np.insert_desc]. fold (v (S n)). fold (v h).
    destruct (Np.lt (v (S n)) (v h)) eqn:Hlt.
    + exists h, (Np.insert_desc v (S n) rest).
      split; [reflexivity|]. split; [lia|].
      intros j Hj. destruct (Nat.eq_dec j (S n)) as [->|Hne].
      * fold (v (S n)). split; [apply np_lt_asym, Hlt|].
        intros Hc. fold (v h) in Hc. congruence.
      * apply Htop. lia.
    + exists (S n), (h :: rest).
      split; [reflexivity|]. split; [lia|].
      intros j Hj. split; [|lia].
      destruct (Nat.eq_dec j (S n)) as [->|Hne]; [apply np_lt_irrefl|].
      apply (np_lt_negtrans _ (v h)); [exact Hlt|].
      apply Htop. lia.
Qed.

(** What [predict] returns on a vector of three scores. *)
Lemma predict_three_scores name dev fwd text w a b c h rest :
  fwd text = [a; b; c] ->
  Np.argsort_reversed [a; b; c] = h :: rest ->
  h < 3 ->
  App.predict text (App.init name dev fwd) w =
  (Ok (mkResult (label_at h) (nth h [a; b; c] nan)
         [(Negative, a); (Neutral, b); (Positive, c)]),
   App.init name dev fwd, w).
Proof.
  intros Hf Hr Hh. unfold App.predict.
  cbv [bind get_self]. cbn [App.forward App.labels App.init].
  rewrite Hf, Hr.
  destruct h as [|[|[|h]]]; [reflexivity..|lia].
Qed.

(** C1, as the code has it: on three scores without NaN, [predict]
    returns a label whose score is the greatest, with that score as the
    confidence and the three scores by label; among the labels that
    share the greatest score it returns the last one of Negative,
    Neutral, Positive. *)
Theorem predict_returns_last_argmax name dev fwd text w a b c :
  fwd text = [a; b; c] ->
  is_nan a = false -> is_nan b = false -> is_nan c = false ->
  exists l,
    App.predict text (App.init name dev fwd) w =
    (Ok (mkResult l (score_of [a; b; c] l)
           [(Negative, a); (Neutral, b); (Positive, c)]),
     App.init name dev fwd, w) /\
    is_argmax [a; b; c] l /\
    last_among_ties [a; b; c] l.
Proof.
  intros Hf Na Nb Nc.
  destruct (argsort_reversed_top [a; b; c]) as (h & rest & Hr & Hh & Htop);
    [discriminate|].
  cbn [List.length] in Hh, Htop.
  exists (label_at h).
  assert (Ei : label_index (label_at h) = h)
    by (destruct h as [|[|[|h]]]; [reflexivity..|lia]).
  assert (Hs : forall l, score_of [a; b; c] l = nth (label_index l) [a; b; c] nan)
    by reflexivity.
  assert (Hnan : forall l, is_nan (score_of [a; b; c] l) = false)
    by (intros []; assumption).
  split; [|split].
  - rewrite (predict_three_scores name dev fwd text w a b c h rest Hf Hr Hh).
    rewrite Hs, Ei. reflexivity.
  - intros l'. apply np_not_lt_leb; [apply Hnan|].
    rewrite !Hs, Ei. apply Htop. destruct l'; cbn; lia.
  - intros l' Heq. rewrite Ei.
    apply (proj2 (Htop (label_index l') ltac:(destruct l'; cbn; lia))).
    apply eqb_not_lt. rewrite !Hs, Ei in Heq.
    rewrite FloatAxioms.eqb_spec in *. unfold SFeqb in *.
    rewrite SFcompare_swap.
    destruct (SFcompare _ _) as [[| |]|]; cbn; congruence.
Qed.

Lemma predict_returns_last_argmax_witness :
  (fun _ : string => [0.4; 0.4; 0.2]%float) "The product arrived on time."
    = [0.4; 0.4; 0.2]%float /\
  is_nan 0.4 = false /\ is_nan 0.4 = false /\ is_nan 0.2 = false /\
  exists l,
    App.predict "The product arrived on time."
      (App.init "cardiffnlp/twitter-roberta-base-sentiment-latest" "cpu"
                (fun _ => [0.4; 0.4; 0.2]%float)) ticking_world =
    (Ok (mkResult l (score_of [0.4; 0.4; 0.2]%float l)
           [(Negative, 0.4%float); (Neutral, 0.4%float);
            (Positive, 0.2%float)]),
     App.init "cardiffnlp/twitter-roberta-base-sentiment-latest" "cpu"
              (fun _ => [0.4; 0.4; 0.2]%float), ticking_world) /\
    is_argmax [0.4; 0.4; 0.2]%float l /\
    last_among_ties [0.4; 0.4; 0.2]%float l.
Proof.
  split; [reflexivity|]. split; [reflexivity|].
  split; [reflexivity|]. split; [reflexivity|].
  apply (predict_returns_last_argmax
           "cardiffnlp/twitter-roberta-base-sentiment-latest" "cpu"
           (fun _ => [0.4; 0.4; 0.2]%float)
           "The product arrived on time." ticking_world
           0.4%float 0.4%float 0.2%float); reflexivity.
Defined.

(** C1, as the claim has it, fails on a tie: when Negative and Neutral
    share the greatest score, [predict] returns Neutral, which is not the
    label of lowest index among the two. *)
Lemma predict_tie_goes_to_later_label :
  result_of (App.predict "The product arrived on time." tied_analyzer
                         ticking_world) =
    Ok (mkResult Neutral 0.4%float
          [(Negative, 0.4%float); (Neutral, 0.4%float); (Positive, 0.2%float)]) /\
  is_argmax [0.4; 0.4; 0.2]%float Negative /\
  is_argmax [0.4; 0.4; 0.2]%float Neutral /\
  first_among_ties [0.4; 0.4; 0.2]%float Negative /\
  ~ first_among_ties [0.4; 0.4; 0.2]%float Neutral.
Proof.
  split; [vm_compute; reflexivity|].
  split; [intros []; vm_compute; reflexivity|].
  split; [intros []; vm_compute; reflexivity|].
  split; [intros l' _; cbn; lia|].
  intros H. specialize (H Negative). cbn in H.
  assert (1 <= 0) by (apply H; vm_compute; reflexivity). lia.
Qed.

(** ** The rolling window *)

Lemma tl_skipn {A} k : forall l : list A, tl (skipn k l) = skipn (S k) l.
Proof.
  induction k as [|k IH]; intros [|a l]; try reflexivity.
  cbn [skipn]. rewrite IH. reflexivity.
Qed.

Lemma deque_append_slice_last {A} n (l : list A) x :
  deque_append n (slice_last n l) x = slice_last n (l ++ [x]).
Proof.
  unfold deque_append, slice_last.
  rewrite !length_app, length_skipn. cbn [List.length].
  destruct (Nat.ltb_spec n (List.length l - (List.length l - n) + 1)%nat)
    as [H|H].
  - destruct (skipn (List.length l - n) l) as [|y ys] eqn:E.
    + apply (f_equal (@List.length A)) in E. rewrite length_skipn in E.
      cbn in E. rewrite skipn_all2 by (rewrite length_app; cbn; lia).
      reflexivity.
    + assert (Hn : n <= List.length l) by lia.
      replace (List.length l + 1 - n) with (S (List.length l - n)) by lia.
      rewrite skipn_app.
      replace (S (List.length l - n) - List.length l) with 0.
      * rewrite <- tl_skipn, E. reflexivity.
      * apply (f_equal (@List.length A)) in E. rewrite length_skipn in E.
        cbn in E. lia.
  - replace (List.length l - n) with 0 by lia.
    replace (List.length l + 1 - n) with 0 by lia. reflexivity.
Qed.

Lemma slice_last_of_short {A} n (l : list A) :
  len l <= n -> slice_last n l = l.
Proof.
  unfold slice_last, len. intros H.
  replace (List.length l - n) with 0 by lia. reflexivity.
Qed.

(** What a call of [log_prediction] leaves in the monitor, whatever it
    returns. *)
Lemma log_prediction_self text r m w :
  self_after (Monitoring.log_prediction text r m w) =
  Monitoring.set_buffers
    (deque_append (Monitoring.window_size m) (Monitoring.confidence_buffer m)
                  (confidence r))
    (deque_append (Monitoring.window_size m) (Monitoring.sentiment_buffer m)
                  (sentiment r))
    m.
Proof.
  unfold Monitoring.log_prediction.
  cbv [bind now get_self set_self to_csv_append ret raise dict_get self_after].
  cbn [Monitoring.set_buffers Monitoring.window_size
       Monitoring.confidence_buffer Monitoring.sentiment_buffer
       Monitoring.log_file Monitoring.confidence_threshold
       Monitoring.drift_threshold Monitoring.baseline_distribution fst snd].
  destruct (dict_find label_eqb (scores r) Negative); [|reflexivity].
  destruct (dict_find label_eqb (scores r) Neutral); [|reflexivity].
  destruct (dict_find label_eqb (scores r) Positive); [|reflexivity].
  cbn [fst snd].
  match goal with
  | |- context [Monitoring.check_alerts ?s ?w'] =>
      pose proof (effect_free_self _ _ s w' check_alerts_effect_free) as H;
      unfold self_after in H;
      destruct (Monitoring.check_alerts s w') as [[[a|e] s'] w'']
  end; cbn in *; exact H.
Qed.

(** The buffers after a sequence of calls hold the newest entries of
    everything recorded so far. *)
Lemma after_calls_buffers rs : forall m w cs ss,
  Monitoring.confidence_buffer m = slice_last (Monitoring.window_size m) cs ->
  Monitoring.sentiment_buffer m = slice_last (Monitoring.window_size m) ss ->
  let m' := fst (after_calls rs m w) in
  Monitoring.confidence_buffer m' =
    slice_last (Monitoring.window_size m)
      (cs ++ map (fun tr => confidence (snd tr)) rs) /\
  Monitoring.sentiment_buffer m' =
    slice_last (Monitoring.window_size m)
      (ss ++ map (fun tr => sentiment (snd tr)) rs) /\
  config m' = config m /\
  Monitoring.log_file m' = Monitoring.log_file m.
Proof.
  induction rs as [|[text r] rs IH]; intros m w cs ss Hc Hs;
    cbn [after_calls map].
  - rewrite !app_nil_r. auto.
  - rewrite log_prediction_self.
    set (m1 := Monitoring.set_buffers _ _ m).
    specialize (IH m1 (world_after (Monitoring.log_prediction text r m w))
                   (cs ++ [confidence r]) (ss ++ [sentiment r])).
    cbv zeta in IH. rewrite <- !app_assoc in IH. apply IH.
    + unfold m1; cbn. rewrite Hc. apply deque_append_slice_last.
    + unfold m1; cbn. rewrite Hs. apply deque_append_slice_last.
Qed.

Lemma init_returns path capacity w :
  result_of (Monitoring.init path capacity tt w) =
  Ok (Monitoring.new_monitor path capacity).
Proof.
  unfold Monitoring.init, result_of.
  cbv [bind path_exists to_csv_append ret].
  destruct (lookup_file path (files w)); reflexivity.
Qed.

Lemma label_shares_same_buffer m1 m2 w1 w2 :
  Monitoring.sentiment_buffer m1 = Monitoring.sentiment_buffer m2 ->
  result_of (Monitoring.label_shares m1 w1) =
  result_of (Monitoring.label_shares m2 w2).
Proof. intros H. rewrite !label_shares_result, H. reflexivity. Qed.

(** The buffers of a fresh window after a sequence of calls. *)
Lemma fresh_window_buffers path capacity w rs :
  let start := fresh path capacity w in
  let m := fst (after_calls rs (fst start) (snd start)) in
  Monitoring.confidence_buffer m =
    skipn (len rs - capacity) (map (fun tr => confidence (snd tr)) rs) /\
  Monitoring.sentiment_buffer m =
    skipn (len rs - capacity) (map (fun tr => sentiment (snd tr)) rs) /\
  config m = config (Monitoring.new_monitor path capacity).
Proof.
  intros start m. subst start. cbn [fresh fst snd] in *.
  destruct (after_calls_buffers rs (Monitoring.new_monitor path capacity)
              (world_after (Monitoring.init path capacity tt w)) [] [])
    as (Hc & Hs & Hk & _); try reflexivity.
  fold m in Hc, Hs, Hk.
  cbn [app Monitoring.window_size Monitoring.new_monitor] in Hc, Hs.
  unfold slice_last in Hc, Hs. rewrite length_map in Hc, Hs.
  auto.
Qed.

(** C5: after [N] recordings in a fresh window of capacity [C] the two
    buffers have the same length, which is [N] when [N <= C] and [C]
    otherwise, and they hold the recordings without the [N - C] oldest
    ones, in arrival order; the label distribution is the one of a fresh
    window in which only the recordings that remain were made. *)
Theorem window_keeps_newest path capacity w rs :
  let start := fresh path capacity w in
  let N := len rs in
  let m := fst (after_calls rs (fst start) (snd start)) in
  len (Monitoring.confidence_buffer m) = Nat.min N capacity /\
  len (Monitoring.sentiment_buffer m) = len (Monitoring.confidence_buffer m) /\
  Monitoring.confidence_buffer m =
    skipn (N - capacity) (map (fun tr => confidence (snd tr)) rs) /\
  Monitoring.sentiment_buffer m =
    skipn (N - capacity) (map (fun tr => sentiment (snd tr)) rs) /\
  result_of (Monitoring.label_shares m w) =
    result_of (Monitoring.label_shares
                 (fst (after_calls (skipn (N - capacity) rs)
                                   (fst start) (snd start))) w).
Proof.
  intros start N m.
  destruct (fresh_window_buffers path capacity w rs) as (Hc & Hs & _).
  destruct (fresh_window_buffers path capacity w (skipn (N - capacity) rs))
    as (_ & Hs' & _).
  fold start in Hc, Hs, Hs'. fold m in Hc, Hs. fold N in Hc, Hs.
  unfold len in Hs'.
  repeat split.
  - rewrite Hc. unfold len. rewrite length_skipn, length_map.
    fold (len rs); fold N. lia.
  - rewrite Hc, Hs. unfold len. rewrite !length_skipn, !length_map.
    reflexivity.
  - exact Hc.
  - exact Hs.
  - apply label_shares_same_buffer. rewrite Hs, Hs'.
    rewrite length_skipn. fold (len rs); fold N.
    replace (N - (N - capacity) - capacity) with 0 by lia.
    cbn [skipn]. apply skipn_map.
Qed.

(** ** Alerts *)

Lemma check_alerts_below_floor m w :
  len (Monitoring.confidence_buffer m) < 10 ->
  Monitoring.check_alerts m w = (Ok [], m, w).
Proof.
  intros H. unfold Monitoring.check_alerts. cbv [bind get_self].
  apply Nat.ltb_lt in H. rewrite H. reflexivity.
Qed.

(** C6: on a window of fewer than 10 entries [check_alerts] returns the
    empty list, whatever the window holds.  The two checks run from 10
    entries on: after 9 recordings of confidence 0.4 no alert is
    returned, after 10 of them both alerts are. *)
Theorem check_alerts_needs_ten :
  (forall m w, len (Monitoring.confidence_buffer m) < 10 ->
               Monitoring.check_alerts m w = (Ok [], m, w)) /\
  len (Monitoring.confidence_buffer (fst (recorded 100 9 Positive 0.4%float))) = 9 /\
  result_of (Monitoring.check_alerts (fst (recorded 100 9 Positive 0.4%float))
                                     (snd (recorded 100 9 Positive 0.4%float)))
  = Ok [] /\
  len (Monitoring.confidence_buffer (fst (recorded 100 10 Positive 0.4%float))) = 10 /\
  result_of (Monitoring.check_alerts (fst (recorded 100 10 Positive 0.4%float))
                                     (snd (recorded 100 10 Positive 0.4%float)))
  = Ok [low_confidence_alert
          (Np.mean (Monitoring.confidence_buffer
                      (fst (recorded 100 10 Positive 0.4%float))));
        all_positive_drift].
Proof.
  split; [exact check_alerts_below_floor|].
  repeat split; vm_compute; reflexivity.
Qed.

Lemma map_constant {A B} (f : A -> B) c l :
  Forall (fun a => f a = c) l -> map f l = repeat c (List.length l).
Proof.
  induction 1 as [|a l Ha _ IH]; cbn; [reflexivity|].
  rewrite Ha, IH. reflexivity.
Qed.

(** C7: with the default baseline, after exactly 20 recordings that are
    all labelled [Positive] with confidence 0.9, [check_alerts] returns
    one alert, the [DISTRIBUTION_DRIFT] alert of severity [INFO] that
    carries the current distribution; no [LOW_CONFIDENCE] alert is
    returned. *)
Theorem check_alerts_all_positive path capacity w rs w' :
  20 <= capacity ->
  len rs = 20 ->
  Forall (fun tr => sentiment (snd tr) = Positive) rs ->
  Forall (fun tr => confidence (snd tr) = 0.9%float) rs ->
  let start := fresh path capacity w in
  let m := fst (after_calls rs (fst start) (snd start)) in
  Monitoring.check_alerts m w' = (Ok [all_positive_drift], m, w').
Proof.
  intros Hcap Hlen Hs Hc start m.
  destruct (fresh_window_buffers path capacity w rs) as (Ec & Es & Ek).
  fold start in Ec, Es, Ek. fold m in Ec, Es, Ek.
  rewrite Hlen in Ec, Es.
  replace (20 - capacity) with 0 in Ec, Es by lia. cbn [skipn] in Ec, Es.
  rewrite (map_constant _ _ _ Hc) in Ec.
  rewrite (map_constant _ _ _ Hs) in Es.
  unfold len in Hlen. rewrite Hlen in Ec, Es.
  destruct m as [lf ws cb sb ct dt bd].
  cbn in Ec, Es, Ek. injection Ek as Eb Et Ed Ew. subst.
  vm_compute. reflexivity.
Qed.

Lemma check_alerts_all_positive_witness :
  20 <= 100 /\
  len (repeat ("Test", sample Positive 0.9%float) 20) = 20 /\
  Forall (fun tr => sentiment (snd tr) = Positive)
         (repeat ("Test", sample Positive 0.9%float) 20) /\
  Forall (fun tr => confidence (snd tr) = 0.9%float)
         (repeat ("Test", sample Positive 0.9%float) 20) /\
  Monitoring.check_alerts
    (fst (after_calls (repeat ("Test", sample Positive 0.9%float) 20)
            (fst (fresh "monitoring_logs.csv" 100 ticking_world))
            (snd (fresh "monitoring_logs.csv" 100 ticking_world))))
    ticking_world =
  (Ok [all_positive_drift],
   fst (after_calls (repeat ("Test", sample Positive 0.9%float) 20)
          (fst (fresh "monitoring_logs.csv" 100 ticking_world))
          (snd (fresh "monitoring_logs.csv" 100 ticking_world))),
   ticking_world).
Proof.
  assert (H1 : Forall (fun tr : string * PredictionResult =>
                         sentiment (snd tr) = Positive)
                      (repeat ("Test", sample Positive 0.9%float) 20))
    by (apply Forall_forall; intros x Hx; apply repeat_spec in Hx;
        subst x; reflexivity).
  assert (H2 : Forall (fun tr : string * PredictionResult =>
                         confidence (snd tr) = 0.9%float)
                      (repeat ("Test", sample Positive 0.9%float) 20))
    by (apply Forall_forall; intros x Hx; apply repeat_spec in Hx;
        subst x; reflexivity).
  split; [lia|]. split; [reflexivity|]. split; [exact H1|].
  split; [exact H2|].
  apply (check_alerts_all_positive "monitoring_logs.csv" 100 ticking_world
           (repeat ("Test", sample Positive 0.9%float) 20) ticking_world);
    [lia|reflexivity|exact H1|exact H2].
Defined.

(** ** Metrics *)

(** C9: on an empty window [get_current_metrics] returns the "no_data"
    dictionary without reading the clock or computing anything; on a
    window that is not empty, and whose two buffers have the same length,
    it returns the "ok" dictionary with the size of the window, the mean,
    minimum and maximum of the confidences and the label shares. *)
Theorem get_current_metrics_no_data m w :
  (len (Monitoring.confidence_buffer m) = 0 ->
   Monitoring.get_current_metrics m w =
   (Ok (Monitoring.MetricsNoData "no_data" "Nessun dato disponibile"), m, w)) /\
  (len (Monitoring.confidence_buffer m) <> 0 ->
   len (Monitoring.sentiment_buffer m) = len (Monitoring.confidence_buffer m) ->
   exists c cs shares,
     Monitoring.confidence_buffer m = c :: cs /\
     result_of (Monitoring.label_shares m w) = Ok shares /\
     result_of (Monitoring.get_current_metrics m w) =
     Ok (Monitoring.MetricsOk "ok" (len (Monitoring.confidence_buffer m))
           (Np.mean (Monitoring.confidence_buffer m))
           (Np.min1 c cs) (Np.max1 c cs) shares
           (strftime_log (clock w (reads w))))).
Proof.
  split.
  - intros H. unfold Monitoring.get_current_metrics. cbv [bind get_self].
    rewrite H. reflexivity.
  - intros Hne Hlen.
    pose proof (label_shares_result m w) as Hr.
    pose proof (label_shares_effect_free m w w) as Hf.
    unfold Monitoring.get_current_metrics. cbv [bind get_self].
    rewrite (proj2 (Nat.eqb_neq _ _) Hne), Hf, Hr, Hlen.
    destruct (Monitoring.confidence_buffer m) as [|c cs] eqn:E;
      [cbn in Hne; congruence|].
    exists c, cs. cbn [len List.length]. cbn.
    eexists. repeat split.
Qed.

Lemma get_current_metrics_no_data_witness :
  len (Monitoring.confidence_buffer
         (Monitoring.new_monitor "monitoring_logs.csv" 100)) = 0 /\
  Monitoring.get_current_metrics
    (Monitoring.new_monitor "monitoring_logs.csv" 100) ticking_world =
  (Ok (Monitoring.MetricsNoData "no_data" "Nessun dato disponibile"),
   Monitoring.new_monitor "monitoring_logs.csv" 100, ticking_world).
Proof.
  split; [reflexivity|].
  apply (proj1 (get_current_metrics_no_data
                  (Monitoring.new_monitor "monitoring_logs.csv" 100)
                  ticking_world)).
  reflexivity.
Defined.

(** ** The retraining decision *)

(** C2: while the window holds fewer entries than its capacity,
    [should_retrain] returns [(False, "Dati insufficienti per la
    valutazione")] and changes nothing, whatever the confidences in the
    window are. *)
Theorem should_retrain_insufficient_data m w :
  len (Monitoring.confidence_buffer m) < Monitoring.window_size m ->
  Monitoring.should_retrain m w =
  (Ok (false, [Lit "Dati insufficienti per la valutazione"]), m, w).
Proof.
  intros H. unfold Monitoring.should_retrain.
  cbv [bind get_self].
  apply Nat.ltb_lt in H. rewrite H. reflexivity.
Qed.

(** The window of capacity 100 after 99 recordings of confidence 0.1. *)
Lemma should_retrain_insufficient_data_witness :
  len (Monitoring.confidence_buffer (fst (recorded 100 99 Neutral 0.1%float)))
  < Monitoring.window_size (fst (recorded 100 99 Neutral 0.1%float)) /\
  Monitoring.should_retrain (fst (recorded 100 99 Neutral 0.1%float))
                            (snd (recorded 100 99 Neutral 0.1%float)) =
  (Ok (false, [Lit "Dati insufficienti per la valutazione"]),
   fst (recorded 100 99 Neutral 0.1%float),
   snd (recorded 100 99 Neutral 0.1%float)).
Proof.
  split.
  - vm_compute. lia.
  - apply (should_retrain_insufficient_data
             (fst (recorded 100 99 Neutral 0.1%float))
             (snd (recorded 100 99 Neutral 0.1%float))).
    vm_compute. lia.
Defined.

(** C3: on a full window whose mean confidence is below 0.5,
    [should_retrain] returns [True] with the reason that cites the
    critical mean; the trend of the window is not consulted. *)
Theorem should_retrain_critical_confidence m w :
  len (Monitoring.confidence_buffer m) = Monitoring.window_size m ->
  (Np.mean (Monitoring.confidence_buffer m) <? 0.5)%float = true ->
  Monitoring.should_retrain m w =
  (Ok (true, [Lit "Confidenza critica: ";
              Pct2 (Np.mean (Monitoring.confidence_buffer m))]), m, w).
Proof.
  intros Hfull Hlow. unfold Monitoring.should_retrain.
  cbv [bind get_self].
  rewrite Hfull, Nat.ltb_irrefl, Hlow. reflexivity.
Qed.

(** The window of capacity 100 after 100 recordings of confidence
    0.45. *)
Lemma should_retrain_critical_confidence_witness :
  len (Monitoring.confidence_buffer (fst (recorded 100 100 Neutral 0.45%float)))
  = Monitoring.window_size (fst (recorded 100 100 Neutral 0.45%float)) /\
  (Np.mean (Monitoring.confidence_buffer
              (fst (recorded 100 100 Neutral 0.45%float))) <? 0.5)%float = true /\
  Monitoring.should_retrain (fst (recorded 100 100 Neutral 0.45%float))
                            (snd (recorded 100 100 Neutral 0.45%float)) =
  (Ok (true, [Lit "Confidenza critica: ";
              Pct2 (Np.mean (Monitoring.confidence_buffer
                               (fst (recorded 100 100 Neutral 0.45%float))))]),
   fst (recorded 100 100 Neutral 0.45%float),
   snd (recorded 100 100 Neutral 0.45%float)).
Proof.
  split; [vm_compute; reflexivity|].
  split; [vm_compute; reflexivity|].
  apply (should_retrain_critical_confidence
           (fst (recorded 100 100 Neutral 0.45%float))
           (snd (recorded 100 100 Neutral 0.45%float)));
    vm_compute; reflexivity.
Defined.

(** The critical reason is the one returned on a window on which the
    trend test would succeed as well. *)
Example critical_reason_before_trend :
  let cb := Monitoring.confidence_buffer (fst declining) in
  (Np.mean (slice_last 20 cb) <? Np.mean (slice_to 20 cb) - 0.1)%float = true /\
  result_of (Monitoring.should_retrain (fst declining) (snd declining)) =
  Ok (true, [Lit "Confidenza critica: "; Pct2 (Np.mean cb)]).
Proof. split; vm_compute; reflexivity. Qed.

(** ** What the methods leave unchanged *)

(** C10: no call of [log_prediction], [check_alerts],
    [get_current_metrics] or [should_retrain] changes the baseline
    distribution, the two thresholds or the capacity; the last three
    leave the whole monitor, buffers included, as it was, and a second
    [check_alerts] returns what the first returned. *)
Theorem monitor_configuration_is_kept text r m w w' :
  config (self_after (Monitoring.log_prediction text r m w)) = config m /\
  self_after (Monitoring.check_alerts m w) = m /\
  self_after (Monitoring.get_current_metrics m w) = m /\
  self_after (Monitoring.should_retrain m w) = m /\
  result_of (Monitoring.check_alerts
               (self_after (Monitoring.check_alerts m w)) w') =
  result_of (Monitoring.check_alerts m w).
Proof.
  pose proof (effect_free_self _ _ m w check_alerts_effect_free) as Ha.
  repeat split.
  - rewrite log_prediction_self. reflexivity.
  - exact Ha.
  - apply (get_current_metrics_read_only m w).
  - apply effect_free_self, should_retrain_effect_free.
  - rewrite Ha. apply effect_free_result, check_alerts_effect_free.
Qed.

(** ** Malformed results *)

(** C8, as the code has it: [log_prediction] does not look at the
    scores before recording.  In a monitor of capacity at least 1 the
    confidence and the sentiment of every result, malformed or not,
    become the newest entries of the two buffers. *)
Theorem log_prediction_records_any_result text r m w :
  0 < Monitoring.window_size m ->
  exists cs ss,
    Monitoring.confidence_buffer
      (self_after (Monitoring.log_prediction text r m w)) =
      cs ++ [confidence r] /\
    Monitoring.sentiment_buffer
      (self_after (Monitoring.log_prediction text r m w)) =
      ss ++ [sentiment r].
Proof.
  intros Hcap. rewrite log_prediction_self. cbn.
  unfold deque_append. rewrite !length_app. cbn [List.length].
  exists (if Nat.ltb (Monitoring.window_size m)
                     (List.length (Monitoring.confidence_buffer m) + 1)
          then tl (Monitoring.confidence_buffer m)
          else Monitoring.confidence_buffer m),
         (if Nat.ltb (Monitoring.window_size m)
                     (List.length (Monitoring.sentiment_buffer m) + 1)
          then tl (Monitoring.sentiment_buffer m)
          else Monitoring.sentiment_buffer m).
  split.
  - destruct (Nat.ltb_spec (Monitoring.window_size m)
                (List.length (Monitoring.confidence_buffer m) + 1)) as [H|H];
      [|reflexivity].
    destruct (Monitoring.confidence_buffer m); cbn in *; [lia|reflexivity].
  - destruct (Nat.ltb_spec (Monitoring.window_size m)
                (List.length (Monitoring.sentiment_buffer m) + 1)) as [H|H];
      [|reflexivity].
    destruct (Monitoring.sentiment_buffer m); cbn in *; [lia|reflexivity].
Qed.

Lemma log_prediction_records_any_result_witness :
  0 < Monitoring.window_size (Monitoring.new_monitor "monitoring_logs.csv" 100) /\
  exists cs ss,
    Monitoring.confidence_buffer
      (self_after (Monitoring.log_prediction "Test" nan_result
                     (Monitoring.new_monitor "monitoring_logs.csv" 100)
                     ticking_world)) =
      cs ++ [confidence nan_result] /\
    Monitoring.sentiment_buffer
      (self_after (Monitoring.log_prediction "Test" nan_result
                     (Monitoring.new_monitor "monitoring_logs.csv" 100)
                     ticking_world)) =
      ss ++ [sentiment nan_result].
Proof.
  split; [cbn; lia|].
  apply (log_prediction_records_any_result "Test" nan_result
           (Monitoring.new_monitor "monitoring_logs.csv" 100) ticking_world).
  cbn; lia.
Defined.

(** C8, as the claim has it, fails: a result whose scores hold a NaN and
    a result whose scores sum to 2.7 are both accepted.  The call returns
    normally, the window changes, and the NaN becomes the mean, minimum
    and maximum confidence of the window. *)
Lemma malformed_result_is_recorded :
  malformed nan_result = true /\
  malformed unnormalised_result = true /\
  result_of (Monitoring.log_prediction "Test" nan_result
               (Monitoring.new_monitor "monitoring_logs.csv" 100)
               ticking_world) = Ok [] /\
  window (self_after (Monitoring.log_prediction "Test" nan_result
                        (Monitoring.new_monitor "monitoring_logs.csv" 100)
                        ticking_world)) = ([nan], [Negative]) /\
  result_of (Monitoring.log_prediction "Test" unnormalised_result
               (Monitoring.new_monitor "monitoring_logs.csv" 100)
               ticking_world) = Ok [] /\
  window (self_after (Monitoring.log_prediction "Test" unnormalised_result
                        (Monitoring.new_monitor "monitoring_logs.csv" 100)
                        ticking_world)) = ([0.9%float], [Positive]) /\
  result_of (Monitoring.get_current_metrics
               (self_after (Monitoring.log_prediction "Test" nan_result
                              (Monitoring.new_monitor "monitoring_logs.csv" 100)
                              ticking_world))
               ticking_world) =
  Ok (Monitoring.MetricsOk "ok" 1 nan nan nan
        [(Negative, 1%float); (Neutral, 0%float); (Positive, 0%float)]
        "2024-05-17 10:30:00").
Proof. repeat split; vm_compute; reflexivity. Qed.

(** ** Version strings *)

Lemma digit_inj a b : digit a = digit b -> (a mod 10 = b mod 10)%Z.
Proof.
  unfold digit. intros H.
  apply (f_equal N_of_ascii) in H.
  assert (Ha := Z.mod_pos_bound a 10 eq_refl).
  assert (Hb := Z.mod_pos_bound b 10 eq_refl).
  rewrite !N_ascii_embedding in H by lia.
  lia.
Qed.

Lemma pad2_inj a b :
  (0 <= a < 100)%Z -> (0 <= b < 100)%Z -> pad2 a = pad2 b -> a = b.
Proof.
  unfold pad2. intros Ha Hb H. injection H as H1 H2.
  apply digit_inj in H1, H2.
  Z.div_mod_to_equations. lia.
Qed.

Lemma pad4_inj a b :
  (0 <= a < 10000)%Z -> (0 <= b < 10000)%Z -> pad4 a = pad4 b -> a = b.
Proof.
  unfold pad4, pad2. intros Ha Hb H. injection H as H1 H2 H3 H4.
  apply digit_inj in H1, H2, H3, H4.
  Z.div_mod_to_equations. lia.
Qed.

Lemma append_pad2 a s b t :
  (pad2 a ++ s)%string = (pad2 b ++ t)%string -> pad2 a = pad2 b /\ s = t.
Proof.
  unfold pad2. cbn [String.append]. intros H. injection H as H1 H2 H3.
  subst. rewrite H1, H2. auto.
Qed.

Lemma append_pad4 a s b t :
  (pad4 a ++ s)%string = (pad4 b ++ t)%string -> pad4 a = pad4 b /\ s = t.
Proof.
  unfold pad4, pad2. cbn [String.append]. intros H.
  injection H as H1 H2 H3 H4 H5.
  subst. rewrite H1, H2, H3, H4. auto.
Qed.

Lemma append_char c s t :
  (String c "" ++ s)%string = (String c "" ++ t)%string -> s = t.
Proof. cbn [String.append]. intros H. injection H as H. exact H. Qed.

(** Two valid clock readings have the same version string exactly when
    they fall in the same second. *)
Lemma strftime_version_same_second d1 d2 :
  valid_datetime d1 -> valid_datetime d2 ->
  strftime_version d1 = strftime_version d2 <-> same_second d1 d2.
Proof.
  intros V1 V2. unfold valid_datetime in *. split.
  - unfold strftime_version. intros H.
    apply append_pad4 in H as [Hy H].
    apply append_pad2 in H as [Hm H].
    apply append_pad2 in H as [Hd H].
    apply append_char in H.
    apply append_pad2 in H as [Hh H].
    apply append_pad2 in H as [Hmi Hs].
    apply pad4_inj in Hy; [|lia|lia].
    apply pad2_inj in Hm, Hd, Hh, Hmi, Hs; try lia.
    unfold same_second. repeat split; assumption.
  - unfold same_second, strftime_version.
    intros (-> & -> & -> & -> & -> & ->). reflexivity.
Qed.

(** ** Retraining *)

Lemma should_retrain_result m w w' :
  result_of (Monitoring.should_retrain m w) =
  result_of (Monitoring.should_retrain m w').
Proof. apply effect_free_result, should_retrain_effect_free. Qed.

(** A call of [check_and_retrain] that finds retraining warranted reads
    the clock twice and appends one record. *)
Lemma check_and_retrain_warranted mgr w reason :
  result_of (Monitoring.should_retrain (Retrain.monitor mgr) w) =
    Ok (true, reason) ->
  let r := Retrain.mkRecord "completed" (isoformat (clock w (reads w)))
             (Retrain.mkRetrainMetrics 0.72 0.75 "+3%")
             (String.append "v" (strftime_version (clock w (S (reads w))))) in
  Retrain.check_and_retrain mgr w =
  (Ok (Retrain.Retrained r),
   Retrain.mkManager (Retrain.monitor mgr)
                     (Retrain.retraining_history mgr ++ [r]),
   mkWorld (clock w) (S (S (reads w))) (files w)).
Proof.
  intros H r.
  unfold Retrain.check_and_retrain, Retrain._simulate_retraining.
  cbv [bind on_field now get_self set_self ret].
  rewrite (should_retrain_effect_free (Retrain.monitor mgr) w w), H.
  destruct mgr as [mon hist]. reflexivity.
Qed.

(** C4, as the code has it: two calls of [check_and_retrain] in
    sequence that both find retraining warranted append exactly two
    records to the history.  The version of each record is the second
    clock reading of its call, printed to the second, so the two versions
    differ exactly when those two readings do not fall in the same
    second. *)
Theorem check_and_retrain_twice mgr w reason :
  result_of (Monitoring.should_retrain (Retrain.monitor mgr) w) =
    Ok (true, reason) ->
  valid_datetime (clock w (reads w + 1)) ->
  valid_datetime (clock w (reads w + 3)) ->
  exists r1 r2,
    result_of (first_call mgr w) = Ok (Retrain.Retrained r1) /\
    result_of (second_call mgr w) = Ok (Retrain.Retrained r2) /\
    Retrain.retraining_history (self_after (second_call mgr w)) =
      Retrain.retraining_history mgr ++ [r1; r2] /\
    Retrain.model_version r1 =
      String.append "v" (strftime_version (clock w (reads w + 1))) /\
    Retrain.model_version r2 =
      String.append "v" (strftime_version (clock w (reads w + 3))) /\
    (Retrain.model_version r1 <> Retrain.model_version r2 <->
     ~ same_second (clock w (reads w + 1)) (clock w (reads w + 3))).
Proof.
  intros H V1 V3.
  set (first := first_call mgr w). set (second := second_call mgr w).
  unfold second_call in second. fold first in second.
  unfold first_call in first, second.
  replace (reads w + 1) with (S (reads w)) in * by lia.
  replace (reads w + 3) with (S (S (S (reads w)))) in * by lia.
  pose proof (check_and_retrain_warranted mgr w reason H) as E1.
  cbv zeta in E1. fold first in E1.
  assert (H' : result_of
                 (Monitoring.should_retrain
                    (Retrain.monitor (self_after first)) (world_after first)) =
               Ok (true, reason)).
  { rewrite E1. cbn [self_after world_after fst snd Retrain.monitor].
    rewrite <- H. apply should_retrain_result. }
  pose proof (check_and_retrain_warranted _ _ reason H') as E2.
  cbv zeta in E2. fold second in E2.
  rewrite E1 in E2.
  cbn [self_after world_after fst snd Retrain.monitor
       Retrain.retraining_history clock reads files] in E2.
  rewrite E1, E2.
  eexists _, _.
  cbn [result_of self_after fst snd Retrain.retraining_history
       Retrain.model_version].
  repeat split; try reflexivity.
  - rewrite <- app_assoc. reflexivity.
  - intros Hne Hsame. apply Hne.
    apply (strftime_version_same_second _ _ V1 V3) in Hsame.
    rewrite Hsame. reflexivity.
  - intros Hns Heq. apply Hns.
    apply (strftime_version_same_second _ _ V1 V3).
    apply append_char in Heq. exact Heq.
Qed.

Lemma check_and_retrain_twice_witness :
  result_of (Monitoring.should_retrain (Retrain.monitor critical_manager)
                                       ticking_world) =
    Ok (true, [Lit "Confidenza critica: ";
               Pct2 (Np.mean (repeat 0.45%float 100))]) /\
  valid_datetime (clock ticking_world (reads ticking_world + 1)) /\
  valid_datetime (clock ticking_world (reads ticking_world + 3)) /\
  exists r1 r2,
    result_of (first_call critical_manager ticking_world) =
      Ok (Retrain.Retrained r1) /\
    result_of (second_call critical_manager ticking_world) =
      Ok (Retrain.Retrained r2) /\
    Retrain.retraining_history
      (self_after (second_call critical_manager ticking_world)) =
      Retrain.retraining_history critical_manager ++ [r1; r2] /\
    Retrain.model_version r1 =
      String.append "v"
        (strftime_version (clock ticking_world (reads ticking_world + 1))) /\
    Retrain.model_version r2 =
      String.append "v"
        (strftime_version (clock ticking_world (reads ticking_world + 3))) /\
    (Retrain.model_version r1 <> Retrain.model_version r2 <->
     ~ same_second (clock ticking_world (reads ticking_world + 1))
                   (clock ticking_world (reads ticking_world + 3))).
Proof.
  assert (H : result_of (Monitoring.should_retrain
                           (Retrain.monitor critical_manager) ticking_world) =
              Ok (true, [Lit "Confidenza critica: ";
                         Pct2 (Np.mean (repeat 0.45%float 100))]))
    by (vm_compute; reflexivity).
  assert (V1 : valid_datetime (clock ticking_world (reads ticking_world + 1)))
    by (unfold valid_datetime; cbn; lia).
  assert (V3 : valid_datetime (clock ticking_world (reads ticking_world + 3)))
    by (unfold valid_datetime; cbn; lia).
  split; [exact H|]. split; [exact V1|]. split; [exact V3|].
  exact (check_and_retrain_twice critical_manager ticking_world _ H V1 V3).
Defined.

(** C4, as the claim has it, fails: when the two calls are made within
    one second, both find retraining warranted, two records are appended
    to the empty history, and the two records have the same
    [model_version]. *)
Lemma retrainings_in_one_second_share_version :
  result_of (Monitoring.should_retrain (Retrain.monitor critical_manager)
                                       fast_world) =
    Ok (true, [Lit "Confidenza critica: ";
               Pct2 (Np.mean (repeat 0.45%float 100))]) /\
  result_of (Monitoring.should_retrain
               (Retrain.monitor
                  (self_after (first_call critical_manager fast_world)))
               (world_after (first_call critical_manager fast_world))) =
    Ok (true, [Lit "Confidenza critica: ";
               Pct2 (Np.mean (repeat 0.45%float 100))]) /\
  map Retrain.timestamp
      (Retrain.retraining_history
         (self_after (second_call critical_manager fast_world))) =
    ["2024-05-17T10:30:12"; "2024-05-17T10:30:12.000002"] /\
  map Retrain.model_version
      (Retrain.retraining_history
         (self_after (second_call critical_manager fast_world))) =
    ["v20240517_103012"; "v20240517_103012"] /\
  ~ NoDup (map Retrain.model_version
             (Retrain.retraining_history
                (self_after (second_call critical_manager fast_world)))).
Proof.
  assert (E : map Retrain.model_version
                (Retrain.retraining_history
                   (self_after (second_call critical_manager fast_world))) =
              ["v20240517_103012"; "v20240517_103012"])
    by (vm_compute; reflexivity).
  split; [vm_compute; reflexivity|].
  split; [vm_compute; reflexivity|].
  split; [vm_compute; reflexivity|].
  split; [exact E|].
  rewrite E. intros H. inversion H as [|x l Hin _]; subst.
  apply Hin. left. reflexivity.
Qed.

(** * Further properties of the code *)

(** ** [predict] and [predict_batch] *)

Lemma predict_effect_free text : effect_free (App.predict text).
Proof. unfold App.predict. effect_free. Qed.

(** X1: on every vector of three scores, NaN included, [predict] returns
    normally and leaves the analyzer and the world as they were; the
    returned scores are the three scores by label, and the confidence is
    the score stored under the returned sentiment. *)
Theorem predict_confidence_is_score_of_sentiment name dev fwd text w a b c :
  fwd text = [a; b; c] ->
  exists r,
    App.predict text (App.init name dev fwd) w =
      (Ok r, App.init name dev fwd, w) /\
    scores r = [(Negative, a); (Neutral, b); (Positive, c)] /\
    dict_find label_eqb (scores r) (sentiment r) = Some (confidence r).
Proof.
  intros Hf.
  destruct (argsort_reversed_top [a; b; c]) as (h & rest & Hr & Hh & _);
    [discriminate|].
  cbn [List.length] in Hh.
  eexists. split; [|split].
  - apply (predict_three_scores name dev fwd text w a b c h rest Hf Hr Hh).
  - reflexivity.
  - destruct h as [|[|[|h]]]; [reflexivity..|lia].
Qed.

Lemma predict_confidence_is_score_of_sentiment_witness :
  (fun _ : string => [0.02; 0.03; 0.95]%float) "Great!" =
    [0.02; 0.03; 0.95]%float /\
  exists r,
    App.predict "Great!"
      (App.init "roberta" "cpu" (fun _ => [0.02; 0.03; 0.95]%float))
      ticking_world =
      (Ok r, App.init "roberta" "cpu" (fun _ => [0.02; 0.03; 0.95]%float),
       ticking_world) /\
    scores r = [(Negative, 0.02%float); (Neutral, 0.03%float);
                (Positive, 0.95%float)] /\
    dict_find label_eqb (scores r) (sentiment r) = Some (confidence r).
Proof.
  split; [reflexivity|].
  apply (predict_confidence_is_score_of_sentiment "roberta" "cpu"
           (fun _ => [0.02; 0.03; 0.95]%float) "Great!" ticking_world
           0.02%float 0.03%float 0.95%float).
  reflexivity.
Defined.

Lemma np_not_lt_nan x y :
  Np.lt x y = false -> is_nan y = true -> is_nan x = true.
Proof.
  rewrite !is_nan_spec, np_not_lt. intros [H|[H _]] Hy; congruence.
Qed.

(** X2: when one of the three scores is NaN, the confidence that
    [predict] returns is NaN: the sort puts NaN above every number, so
    the top of the ranking is a NaN entry. *)
Theorem predict_nan_score_gives_nan_confidence name dev fwd text w a b c :
  fwd text = [a; b; c] ->
  (is_nan a || is_nan b || is_nan c) = true ->
  exists r,
    result_of (App.predict text (App.init name dev fwd) w) = Ok r /\
    is_nan (confidence r) = true.
Proof.
  intros Hf Hnan.
  destruct (argsort_reversed_top [a; b; c]) as (h & rest & Hr & Hh & Htop);
    [discriminate|].
  cbn [List.length] in Hh, Htop.
  rewrite (predict_three_scores name dev fwd text w a b c h rest Hf Hr Hh).
  eexists. split; [reflexivity|]. cbn [confidence].
  apply orb_prop in Hnan as [Hnan|Hc].
  - apply orb_prop in Hnan as [Ha|Hb].
    + apply (np_not_lt_nan _ a); [|exact Ha].
      apply (proj1 (Htop 0 ltac:(lia))).
    + apply (np_not_lt_nan _ b); [|exact Hb].
      apply (proj1 (Htop 1 ltac:(lia))).
  - apply (np_not_lt_nan _ c); [|exact Hc].
    apply (proj1 (Htop 2 ltac:(lia))).
Qed.

Lemma predict_nan_score_gives_nan_confidence_witness :
  (fun _ : string => [0.2; nan; 0.4]%float) "x" = [0.2; nan; 0.4]%float /\
  (is_nan 0.2 || is_nan nan || is_nan 0.4) = true /\
  exists r,
    result_of (App.predict "x"
                 (App.init "roberta" "cpu" (fun _ => [0.2; nan; 0.4]%float))
                 ticking_world) = Ok r /\
    is_nan (confidence r) = true.
Proof.
  split; [reflexivity|]. split; [reflexivity|].
  apply (predict_nan_score_gives_nan_confidence "roberta" "cpu"
           (fun _ => [0.2; nan; 0.4]%float) "x" ticking_world
           0.2%float nan 0.4%float); reflexivity.
Defined.

(** X3: when the model gives fewer than three scores, [predict] raises
    [IndexError], at the ranking when there is no score and at the
    dictionary of scores otherwise. *)
Theorem predict_short_vector_raises name dev fwd text w :
  List.length (fwd text) < 3 ->
  App.predict text (App.init name dev fwd) w =
  (Raise IndexError, App.init name dev fwd, w).
Proof.
  intros Hlen. unfold App.predict. cbv [bind get_self].
  cbn [App.forward App.labels App.init].
  destruct (fwd text) as [|a [|b [|c l]]]; cbn in Hlen; try lia.
  - reflexivity.
  - reflexivity.
  - unfold Np.argsort_reversed. cbn [List.length seq fold_left Np.insert_desc nth].
    destruct (Np.lt b a); reflexivity.
Qed.

Lemma predict_short_vector_raises_witness :
  List.length ((fun _ : string => [0.5; 0.5]%float) "x") < 3 /\
  App.predict "x" (App.init "roberta" "cpu" (fun _ => [0.5; 0.5]%float))
              ticking_world =
  (Raise IndexError,
   App.init "roberta" "cpu" (fun _ => [0.5; 0.5]%float), ticking_world).
Proof.
  split; [cbn; lia|].
  apply (predict_short_vector_raises "roberta" "cpu"
           (fun _ => [0.5; 0.5]%float) "x" ticking_world).
  cbn; lia.
Defined.

Lemma for_each_all_ok {S A B} (f : A -> M S B) s w l bs :
  (forall a, effect_free (f a)) ->
  Forall2 (fun a b => result_of (f a s w) = Ok b) l bs ->
  for_each f l s w = (Ok bs, s, w).
Proof.
  intros Hf H. induction H as [|a b l bs Hab _ IH]; cbn [for_each].
  - reflexivity.
  - unfold bind. rewrite (Hf a s w w), Hab.
    fold (for_each f l). rewrite IH. reflexivity.
Qed.

Lemma for_each_first_raise {S A B} (f : A -> M S B) s w pre t post e :
  (forall a, effect_free (f a)) ->
  Forall (fun a => exists b, result_of (f a s w) = Ok b) pre ->
  result_of (f t s w) = Raise e ->
  for_each f (pre ++ t :: post) s w = (Raise e, s, w).
Proof.
  intros Hf Hpre Ht. induction Hpre as [|a pre [b Hab] _ IH];
    cbn [for_each app]; unfold bind.
  - rewrite (Hf t s w w), Ht. reflexivity.
  - rewrite (Hf a s w w), Hab.
    fold (for_each f (pre ++ t :: post)). rewrite IH. reflexivity.
Qed.

(** X4: [predict_batch] is [predict] text by text: when [predict]
    returns a result for each text, the batch returns those results, one
    per text and in the order of the texts, and changes nothing. *)
Theorem predict_batch_is_elementwise texts rs a w :
  Forall2 (fun t r => result_of (App.predict t a w) = Ok r) texts rs ->
  App.predict_batch texts a w = (Ok rs, a, w) /\
  List.length rs = List.length texts.
Proof.
  intros H. split.
  - apply for_each_all_ok; [exact predict_effect_free|exact H].
  - symmetry. apply (Forall2_length H).
Qed.

Lemma predict_batch_is_elementwise_witness :
  Forall2 (fun t r => result_of (App.predict t tied_analyzer ticking_world)
                      = Ok r)
          ["Great!"; "Okay"]
          [mkResult Neutral 0.4%float
             [(Negative, 0.4%float); (Neutral, 0.4%float);
              (Positive, 0.2%float)];
           mkResult Neutral 0.4%float
             [(Negative, 0.4%float); (Neutral, 0.4%float);
              (Positive, 0.2%float)]] /\
  App.predict_batch ["Great!"; "Okay"] tied_analyzer ticking_world =
    (Ok [mkResult Neutral 0.4%float
           [(Negative, 0.4%float); (Neutral, 0.4%float);
            (Positive, 0.2%float)];
         mkResult Neutral 0.4%float
           [(Negative, 0.4%float); (Neutral, 0.4%float);
            (Positive, 0.2%float)]],
     tied_analyzer, ticking_world) /\
  List.length
    [mkResult Neutral 0.4%float
       [(Negative, 0.4%float); (Neutral, 0.4%float); (Positive, 0.2%float)];
     mkResult Neutral 0.4%float
       [(Negative, 0.4%float); (Neutral, 0.4%float); (Positive, 0.2%float)]]
  = List.length ["Great!"; "Okay"].
Proof.
  assert (H : Forall2
                (fun t r =>
                   result_of (App.predict t tied_analyzer ticking_world)
                   = Ok r)
                ["Great!"; "Okay"]
                [mkResult Neutral 0.4%float
                   [(Negative, 0.4%float); (Neutral, 0.4%float);
                    (Positive, 0.2%float)];
                 mkResult Neutral 0.4%float
                   [(Negative, 0.4%float); (Neutral, 0.4%float);
                    (Positive, 0.2%float)]])
    by (repeat constructor; vm_compute; reflexivity).
  split; [exact H|].
  exact (predict_batch_is_elementwise _ _ tied_analyzer ticking_world H).
Defined.

(** X5: when [predict] raises on one text and returns on the texts
    before it, [predict_batch] raises the same exception and returns no
    partial list, whatever texts follow. *)
Theorem predict_batch_stops_at_first_error pre t post e a w :
  Forall (fun t' => exists r, result_of (App.predict t' a w) = Ok r) pre ->
  result_of (App.predict t a w) = Raise e ->
  App.predict_batch (pre ++ t :: post) a w = (Raise e, a, w).
Proof.
  intros Hpre Ht.
  apply for_each_first_raise; [exact predict_effect_free|exact Hpre|exact Ht].
Qed.

Lemma predict_batch_stops_at_first_error_witness :
  Forall (fun t' => exists r,
            result_of (App.predict t' picky_analyzer ticking_world) = Ok r)
         ["Great!"] /\
  result_of (App.predict "" picky_analyzer ticking_world) = Raise IndexError /\
  App.predict_batch (["Great!"] ++ "" :: ["Okay"]) picky_analyzer
                    ticking_world =
  (Raise IndexError, picky_analyzer, ticking_world).
Proof.
  assert (H : Forall (fun t' => exists r,
                        result_of (App.predict t' picky_analyzer ticking_world)
                        = Ok r) ["Great!"])
    by (repeat constructor; eexists; vm_compute; reflexivity).
  split; [exact H|]. split; [vm_compute; reflexivity|].
  apply (predict_batch_stops_at_first_error ["Great!"] "" ["Okay"]
           IndexError picky_analyzer ticking_world H).
  vm_compute; reflexivity.
Defined.

(** ** The log file *)

Lemma lookup_append_same path new fs :
  lookup_file path (append_rows path new fs) =
  Some (match lookup_file path fs with
        | Some rows => rows
        | None => []
        end ++ new).
Proof.
  induction fs as [|[p rows] fs IH]; cbn.
  - rewrite String.eqb_refl. reflexivity.
  - destruct (String.eqb p path) eqn:E; cbn; rewrite E; [reflexivity|exact IH].
Qed.

Lemma lookup_append_other p path new fs :
  p <> path ->
  lookup_file p (append_rows path new fs) = lookup_file p fs.
Proof.
  intros Hne. induction fs as [|[q rows] fs IH]; cbn.
  - destruct (String.eqb_spec path p); [congruence|reflexivity].
  - destruct (String.eqb_spec q path) as [->|Hq]; cbn.
    + destruct (String.eqb_spec path p); [congruence|reflexivity].
    + destruct (String.eqb q p); [reflexivity|exact IH].
Qed.

(** X6: the constructor returns a monitor with empty buffers and the
    default thresholds and baseline, without reading the clock.  It
    creates the log file, holding the header row only, when no file of
    that name exists; a file that exists keeps its rows, and no other
    file is touched. *)
Theorem init_creates_log_once path capacity w :
  result_of (Monitoring.init path capacity tt w) =
    Ok (Monitoring.new_monitor path capacity) /\
  reads (world_after (Monitoring.init path capacity tt w)) = reads w /\
  rows_of path (world_after (Monitoring.init path capacity tt w)) =
    match lookup_file path (files w) with
    | Some rows => rows
    | None => [Monitoring.csv_header]
    end /\
  forall p, p <> path ->
    lookup_file p (files (world_after (Monitoring.init path capacity tt w))) =
    lookup_file p (files w).
Proof.
  unfold Monitoring.init, result_of, world_after, rows_of.
  cbv [bind path_exists to_csv_append ret].
  destruct (lookup_file path (files w)) as [rows|] eqn:E; cbn.
  - rewrite E. auto.
  - rewrite lookup_append_same, E. repeat split.
    intros p Hp. apply lookup_append_other, Hp.
Qed.

(** What a call of [log_prediction] on a result with the three score
    keys does to the world and returns. *)
Lemma log_prediction_with_keys text r m w a b c :
  dict_find label_eqb (scores r) Negative = Some a ->
  dict_find label_eqb (scores r) Neutral = Some b ->
  dict_find label_eqb (scores r) Positive = Some c ->
  let m' := self_after (Monitoring.log_prediction text r m w) in
  let w' :=
    mkWorld (clock w) (S (reads w))
      (append_rows (Monitoring.log_file m)
         [[CStr (strftime_log (clock w (reads w)));
           CStr (str_prefix 200 text);
           CStr (label_name (sentiment r)); CFloat (confidence r);
           CFloat a; CFloat b; CFloat c]]
         (files w)) in
  Monitoring.log_prediction text r m w =
  (result_of (Monitoring.check_alerts m' w'), m', w').
Proof.
  intros Ha Hb Hc. cbv zeta. rewrite log_prediction_self.
  unfold Monitoring.log_prediction.
  cbv [bind now get_self set_self to_csv_append ret raise dict_get].
  rewrite Ha, Hb, Hc.
  cbn [Monitoring.set_buffers Monitoring.window_size
       Monitoring.confidence_buffer Monitoring.sentiment_buffer
       Monitoring.log_file Monitoring.confidence_threshold
       Monitoring.drift_threshold Monitoring.baseline_distribution].
  match goal with
  | |- context [Monitoring.check_alerts ?s ?w'] =>
      rewrite (check_alerts_effect_free s w' w')
  end.
  destruct (result_of _); reflexivity.
Qed.

Lemma str_prefix_len n : forall s,
  str_len (str_prefix n s) = Nat.min n (str_len s).
Proof.
  intros s. revert n. induction s as [|c s IH]; intros n; cbn.
  - lia.
  - destruct (is_continuation c) eqn:E.
    + cbn. rewrite E. apply IH.
    + destruct n as [|n]; [reflexivity|]. cbn. rewrite E, IH. lia.
Qed.

Lemma str_prefix_is_prefix n : forall s,
  exists rest, s = (str_prefix n s ++ rest)%string.
Proof.
  intros s. revert n. induction s as [|c s IH]; intros n; cbn.
  - exists "". reflexivity.
  - destruct (is_continuation c).
    + destruct (IH n) as [rest E]. exists rest. cbn. rewrite <- E. reflexivity.
    + destruct n as [|n].
      * exists (String c s). reflexivity.
      * destruct (IH n) as [rest E]. exists rest. cbn. rewrite <- E.
        reflexivity.
Qed.

Lemma str_prefix_all n : forall s, str_len s <= n -> str_prefix n s = s.
Proof.
  intros s. revert n. induction s as [|c s IH]; intros n H; cbn in *.
  - reflexivity.
  - destruct (is_continuation c).
    + rewrite IH by exact H. reflexivity.
    + destruct n as [|n]; [lia|]. rewrite IH by lia. reflexivity.
Qed.

Lemma one_row_is_appended text r m w a b c :
  dict_find label_eqb (scores r) Negative = Some a ->
  dict_find label_eqb (scores r) Neutral = Some b ->
  dict_find label_eqb (scores r) Positive = Some c ->
  exists row,
    rows_of (Monitoring.log_file m)
            (world_after (Monitoring.log_prediction text r m w)) =
    rows_of (Monitoring.log_file m) w ++ [row].
Proof.
  intros Ha Hb Hc.
  rewrite (log_prediction_with_keys text r m w a b c Ha Hb Hc).
  unfold world_after, rows_of. cbn [snd files].
  rewrite lookup_append_same. eexists. reflexivity.
Qed.

(** X7: a call of [log_prediction] on a result that has the three score
    keys reads the clock once and adds one row at the end of the
    monitor's log file: the time, the first 200 characters of the text
    (all of the text when it has no more than 200 characters), the
    sentiment, the confidence and the three scores.  The rows already in
    the file and every other file are kept. *)
Theorem log_prediction_appends_row text r m w a b c :
  dict_find label_eqb (scores r) Negative = Some a ->
  dict_find label_eqb (scores r) Neutral = Some b ->
  dict_find label_eqb (scores r) Positive = Some c ->
  rows_of (Monitoring.log_file m)
          (world_after (Monitoring.log_prediction text r m w)) =
    rows_of (Monitoring.log_file m) w ++
    [[CStr (strftime_log (clock w (reads w)));
      CStr (str_prefix 200 text);
      CStr (label_name (sentiment r)); CFloat (confidence r);
      CFloat a; CFloat b; CFloat c]] /\
  str_len (str_prefix 200 text) = Nat.min 200 (str_len text) /\
  (exists rest, text = (str_prefix 200 text ++ rest)%string) /\
  (str_len text <= 200 -> str_prefix 200 text = text) /\
  reads (world_after (Monitoring.log_prediction text r m w)) = S (reads w) /\
  forall p, p <> Monitoring.log_file m ->
    lookup_file p (files (world_after (Monitoring.log_prediction text r m w)))
    = lookup_file p (files w).
Proof.
  intros Ha Hb Hc.
  rewrite (log_prediction_with_keys text r m w a b c Ha Hb Hc).
  unfold world_after, rows_of. cbn [snd files reads].
  rewrite lookup_append_same.
  split; [reflexivity|]. split; [apply str_prefix_len|].
  split; [apply str_prefix_is_prefix|]. split; [apply str_prefix_all|].
  split; [reflexivity|].
  intros p Hp. apply lookup_append_other, Hp.
Qed.

Lemma log_prediction_appends_row_witness :
  dict_find label_eqb (scores (sample Neutral 0.45%float)) Negative =
    Some 0.25%float /\
  dict_find label_eqb (scores (sample Neutral 0.45%float)) Neutral =
    Some 0.45%float /\
  dict_find label_eqb (scores (sample Neutral 0.45%float)) Positive =
    Some 0.30%float /\
  rows_of "monitoring_logs.csv"
          (world_after (Monitoring.log_prediction (accented 250)
                          (sample Neutral 0.45%float)
                          (Monitoring.new_monitor "monitoring_logs.csv" 100)
                          ticking_world)) =
    rows_of "monitoring_logs.csv" ticking_world ++
    [[CStr (strftime_log (clock ticking_world (reads ticking_world)));
      CStr (str_prefix 200 (accented 250));
      CStr (label_name (sentiment (sample Neutral 0.45%float)));
      CFloat (confidence (sample Neutral 0.45%float));
      CFloat 0.25%float; CFloat 0.45%float; CFloat 0.30%float]] /\
  str_len (str_prefix 200 (accented 250)) =
    Nat.min 200 (str_len (accented 250)) /\
  (exists rest,
     accented 250 = (str_prefix 200 (accented 250) ++ rest)%string) /\
  (str_len (accented 250) <= 200 ->
   str_prefix 200 (accented 250) = accented 250) /\
  reads (world_after (Monitoring.log_prediction (accented 250)
                        (sample Neutral 0.45%float)
                        (Monitoring.new_monitor "monitoring_logs.csv" 100)
                        ticking_world)) = S (reads ticking_world) /\
  forall p, p <> "monitoring_logs.csv" ->
    lookup_file p
      (files (world_after (Monitoring.log_prediction (accented 250)
                             (sample Neutral 0.45%float)
                             (Monitoring.new_monitor "monitoring_logs.csv" 100)
                             ticking_world)))
    = lookup_file p (files ticking_world).
Proof.
  split; [reflexivity|]. split; [reflexivity|]. split; [reflexivity|].
  apply (log_prediction_appends_row (accented 250)
           (sample Neutral 0.45%float)
           (Monitoring.new_monitor "monitoring_logs.csv" 100) ticking_world
           0.25%float 0.45%float 0.30%float); reflexivity.
Defined.

(** A text of 150 accented letters, 300 bytes long, is logged whole; of
    a text of 250 accented letters the first 200 letters are logged,
    which are 400 bytes. *)
Example accented_text_is_cut_by_characters :
  str_len (accented 150) = 150 /\
  String.length (accented 150) = 300 /\
  str_prefix 200 (accented 150) = accented 150 /\
  str_prefix 200 (accented 250) = accented 200 /\
  String.length (str_prefix 200 (accented 250)) = 400.
Proof. repeat split; vm_compute; reflexivity. Qed.

(** X8: when the scores of the result lack one of the three labels,
    [log_prediction] raises [KeyError] after it has recorded the
    confidence and the sentiment in the window: the buffers are updated,
    the clock has been read, and no row reaches the log file. *)
Theorem log_prediction_missing_score_key text r m w :
  dict_find label_eqb (scores r) Negative = None \/
  dict_find label_eqb (scores r) Neutral = None \/
  dict_find label_eqb (scores r) Positive = None ->
  Monitoring.log_prediction text r m w =
  (Raise KeyError,
   Monitoring.set_buffers
     (deque_append (Monitoring.window_size m) (Monitoring.confidence_buffer m)
                   (confidence r))
     (deque_append (Monitoring.window_size m) (Monitoring.sentiment_buffer m)
                   (sentiment r))
     m,
   mkWorld (clock w) (S (reads w)) (files w)).
Proof.
  intros H. unfold Monitoring.log_prediction.
  cbv [bind now get_self set_self to_csv_append ret raise dict_get].
  cbn [Monitoring.set_buffers Monitoring.window_size
       Monitoring.confidence_buffer Monitoring.sentiment_buffer
       Monitoring.log_file Monitoring.confidence_threshold
       Monitoring.drift_threshold Monitoring.baseline_distribution].
  destruct (dict_find label_eqb (scores r) Negative); [|reflexivity].
  destruct (dict_find label_eqb (scores r) Neutral); [|reflexivity].
  destruct (dict_find label_eqb (scores r) Positive); [|reflexivity].
  destruct H as [H|[H|H]]; discriminate.
Qed.

Lemma log_prediction_missing_score_key_witness :
  (dict_find label_eqb (scores two_score_result) Negative = None \/
   dict_find label_eqb (scores two_score_result) Neutral = None \/
   dict_find label_eqb (scores two_score_result) Positive = None) /\
  Monitoring.log_prediction "Test" two_score_result
    (Monitoring.new_monitor "monitoring_logs.csv" 100) ticking_world =
  (Raise KeyError,
   Monitoring.set_buffers
     (deque_append
        (Monitoring.window_size
           (Monitoring.new_monitor "monitoring_logs.csv" 100))
        (Monitoring.confidence_buffer
           (Monitoring.new_monitor "monitoring_logs.csv" 100))
        (confidence two_score_result))
     (deque_append
        (Monitoring.window_size
           (Monitoring.new_monitor "monitoring_logs.csv" 100))
        (Monitoring.sentiment_buffer
           (Monitoring.new_monitor "monitoring_logs.csv" 100))
        (sentiment two_score_result))
     (Monitoring.new_monitor "monitoring_logs.csv" 100),
   mkWorld (clock ticking_world) (S (reads ticking_world))
           (files ticking_world)).
Proof.
  split; [right; right; reflexivity|].
  apply (log_prediction_missing_score_key "Test" two_score_result
           (Monitoring.new_monitor "monitoring_logs.csv" 100) ticking_world).
  right; right; reflexivity.
Defined.

(** X9: on a result with the three score keys, what [log_prediction]
    returns is what [check_alerts] returns on the monitor as the call
    leaves it, the new entry included. *)
Theorem log_prediction_returns_current_alerts text r m w :
  well_keyed r ->
  result_of (Monitoring.log_prediction text r m w) =
  result_of (Monitoring.check_alerts
               (self_after (Monitoring.log_prediction text r m w)) w).
Proof.
  intros (a & b & c & Ha & Hb & Hc).
  rewrite (log_prediction_with_keys text r m w a b c Ha Hb Hc) at 1.
  cbn [result_of fst].
  apply effect_free_result, check_alerts_effect_free.
Qed.

Lemma log_prediction_returns_current_alerts_witness :
  well_keyed (sample Positive 0.4%float) /\
  result_of (Monitoring.log_prediction "Test" (sample Positive 0.4%float)
               (fst (recorded 100 9 Positive 0.4%float))
               (snd (recorded 100 9 Positive 0.4%float))) =
  result_of (Monitoring.check_alerts
               (self_after
                  (Monitoring.log_prediction "Test" (sample Positive 0.4%float)
                     (fst (recorded 100 9 Positive 0.4%float))
                     (snd (recorded 100 9 Positive 0.4%float))))
               (snd (recorded 100 9 Positive 0.4%float))).
Proof.
  assert (H : well_keyed (sample Positive 0.4%float))
    by (exists 0.25%float, 0.45%float, 0.30%float; repeat split).
  split; [exact H|].
  exact (log_prediction_returns_current_alerts "Test"
           (sample Positive 0.4%float)
           (fst (recorded 100 9 Positive 0.4%float))
           (snd (recorded 100 9 Positive 0.4%float)) H).
Defined.

Lemma log_prediction_keeps_log_file text r m w :
  Monitoring.log_file (self_after (Monitoring.log_prediction text r m w)) =
  Monitoring.log_file m.
Proof. rewrite log_prediction_self. reflexivity. Qed.

(** X10: the log file is not bounded by the window: after any sequence
    of calls of [log_prediction] on results that have the three score
    keys, the monitor's log file holds the rows it held before followed
    by one new row per call. *)
Theorem log_file_keeps_every_recording rs : forall m w,
  Forall (fun tr => well_keyed (snd tr)) rs ->
  exists new,
    rows_of (Monitoring.log_file m) (snd (after_calls rs m w)) =
      rows_of (Monitoring.log_file m) w ++ new /\
    List.length new = List.length rs.
Proof.
  induction rs as [|[text r] rs IH]; intros m w H; cbn [after_calls].
  - exists []. rewrite app_nil_r. auto.
  - inversion H as [|x l Hr Hrs]; subst. cbn [snd] in Hr.
    destruct Hr as (a & b & c & Ha & Hb & Hc).
    destruct (IH (self_after (Monitoring.log_prediction text r m w))
                 (world_after (Monitoring.log_prediction text r m w)) Hrs)
      as (new & Hnew & Hlen).
    rewrite log_prediction_keeps_log_file in Hnew.
    destruct (one_row_is_appended text r m w a b c Ha Hb Hc)
      as (row & Hrow).
    rewrite Hrow, <- app_assoc in Hnew.
    exists ([row] ++ new). split; [exact Hnew|].
    cbn [app List.length]. rewrite Hlen. reflexivity.
Qed.

Lemma log_file_keeps_every_recording_witness :
  Forall (fun tr : string * PredictionResult => well_keyed (snd tr))
         (repeat ("Test", sample Neutral 0.45%float) 3) /\
  exists new,
    rows_of (Monitoring.log_file (Monitoring.new_monitor "log.csv" 2))
            (snd (after_calls (repeat ("Test", sample Neutral 0.45%float) 3)
                    (Monitoring.new_monitor "log.csv" 2) ticking_world)) =
      rows_of (Monitoring.log_file (Monitoring.new_monitor "log.csv" 2))
              ticking_world ++ new /\
    List.length new =
      List.length (repeat ("Test", sample Neutral 0.45%float) 3).
Proof.
  assert (H : Forall (fun tr : string * PredictionResult =>
                        well_keyed (snd tr))
                     (repeat ("Test", sample Neutral 0.45%float) 3))
    by (repeat constructor;
        exists 0.25%float, 0.45%float, 0.30%float; repeat split).
  split; [exact H|].
  exact (log_file_keeps_every_recording _
           (Monitoring.new_monitor "log.csv" 2) ticking_world H).
Defined.

(** ** The window between calls *)

Lemma deque_append_length {A} n (d : list A) x :
  List.length d <= n ->
  List.length (deque_append n d x) = Nat.min (List.length d + 1) n.
Proof.
  intros H. unfold deque_append. rewrite length_app. cbn [List.length].
  destruct (Nat.ltb_spec n (List.length d + 1)) as [Hlt|Hge].
  - destruct d as [|y d]; cbn [app tl List.length] in *; [lia|].
    rewrite length_app. cbn [List.length]. lia.
  - rewrite length_app. cbn [List.length]. lia.
Qed.

(** On a dictionary that has the three keys, [log_prediction_dict] is
    [log_prediction]. *)
Lemma log_prediction_dict_of_result text r m w :
  Monitoring.log_prediction_dict text (Monitoring.as_dict r) m w =
  Monitoring.log_prediction text r m w.
Proof. reflexivity. Qed.

(** What a call leaves in the monitor when the dictionary has a
    confidence and a sentiment, whatever the call returns. *)
Lemma log_prediction_dict_self text d m w c s :
  Monitoring.item_confidence d = Some c ->
  Monitoring.item_sentiment d = Some s ->
  self_after (Monitoring.log_prediction_dict text d m w) =
  Monitoring.set_buffers
    (deque_append (Monitoring.window_size m) (Monitoring.confidence_buffer m) c)
    (deque_append (Monitoring.window_size m) (Monitoring.sentiment_buffer m) s)
    m.
Proof.
  intros Hc Hs. unfold Monitoring.log_prediction_dict.
  cbv [bind now get_self set_self to_csv_append ret raise dict_get
       Monitoring.item self_after].
  rewrite Hc, Hs.
  cbn [Monitoring.set_buffers Monitoring.window_size
       Monitoring.confidence_buffer Monitoring.sentiment_buffer
       Monitoring.log_file Monitoring.confidence_threshold
       Monitoring.drift_threshold Monitoring.baseline_distribution fst snd].
  destruct (Monitoring.item_scores d) as [sc|]; [|reflexivity].
  destruct (dict_find label_eqb sc Negative); [|reflexivity].
  destruct (dict_find label_eqb sc Neutral); [|reflexivity].
  destruct (dict_find label_eqb sc Positive); [|reflexivity].
  cbn [fst snd].
  match goal with
  | |- context [Monitoring.check_alerts ?s0 ?w'] =>
      pose proof (effect_free_self _ _ s0 w' check_alerts_effect_free) as H;
      unfold self_after in H;
      destruct (Monitoring.check_alerts s0 w') as [[[a|e] s'] w'']
  end; cbn in *; exact H.
Qed.

(** X11: [log_prediction] on any dictionary.  Without a confidence it
    raises [KeyError] before it touches the window.  With a confidence
    and a sentiment it keeps the two buffers at the same length and
    within the capacity, also when it raises later for the scores, and
    makes the window one entry longer unless the window is full.  With a
    confidence and no sentiment it raises [KeyError] after it has
    appended the confidence: the confidence buffer has the new entry and
    the sentiment buffer is as it was. *)
Theorem log_prediction_keeps_window_ok text d m w :
  window_ok m ->
  (Monitoring.item_confidence d = None ->
   Monitoring.log_prediction_dict text d m w =
   (Raise KeyError, m, mkWorld (clock w) (S (reads w)) (files w))) /\
  (forall c s,
     Monitoring.item_confidence d = Some c ->
     Monitoring.item_sentiment d = Some s ->
     window_ok (self_after (Monitoring.log_prediction_dict text d m w)) /\
     len (Monitoring.confidence_buffer
            (self_after (Monitoring.log_prediction_dict text d m w))) =
     Nat.min (len (Monitoring.confidence_buffer m) + 1)
             (Monitoring.window_size m)) /\
  (forall c,
     Monitoring.item_confidence d = Some c ->
     Monitoring.item_sentiment d = None ->
     Monitoring.log_prediction_dict text d m w =
     (Raise KeyError,
      Monitoring.set_buffers
        (deque_append (Monitoring.window_size m)
                      (Monitoring.confidence_buffer m) c)
        (Monitoring.sentiment_buffer m) m,
      mkWorld (clock w) (S (reads w)) (files w)) /\
     len (deque_append (Monitoring.window_size m)
                       (Monitoring.confidence_buffer m) c) =
     Nat.min (len (Monitoring.sentiment_buffer m) + 1)
             (Monitoring.window_size m)).
Proof.
  intros [Heq Hle]. split; [|split].
  - intros Hc. unfold Monitoring.log_prediction_dict.
    cbv [bind now Monitoring.item raise]. rewrite Hc. reflexivity.
  - intros c s Hc Hs.
    rewrite (log_prediction_dict_self text d m w c s Hc Hs).
    unfold window_ok, len in *.
    cbn [Monitoring.set_buffers Monitoring.confidence_buffer
         Monitoring.sentiment_buffer Monitoring.window_size].
    rewrite !deque_append_length by lia. lia.
  - intros c Hc Hs. split.
    + unfold Monitoring.log_prediction_dict.
      cbv [bind now get_self set_self ret raise Monitoring.item].
      rewrite Hc, Hs. reflexivity.
    + unfold len in *. rewrite deque_append_length by lia. lia.
Qed.

Lemma log_prediction_keeps_window_ok_witness :
  window_ok (Monitoring.new_monitor "monitoring_logs.csv" 100) /\
  (Monitoring.item_confidence no_sentiment_dict = None ->
   Monitoring.log_prediction_dict "Test" no_sentiment_dict
     (Monitoring.new_monitor "monitoring_logs.csv" 100) ticking_world =
   (Raise KeyError, Monitoring.new_monitor "monitoring_logs.csv" 100,
    mkWorld (clock ticking_world) (S (reads ticking_world))
            (files ticking_world))) /\
  (forall c s,
     Monitoring.item_confidence no_sentiment_dict = Some c ->
     Monitoring.item_sentiment no_sentiment_dict = Some s ->
     window_ok (self_after
                  (Monitoring.log_prediction_dict "Test" no_sentiment_dict
                     (Monitoring.new_monitor "monitoring_logs.csv" 100)
                     ticking_world)) /\
     len (Monitoring.confidence_buffer
            (self_after
               (Monitoring.log_prediction_dict "Test" no_sentiment_dict
                  (Monitoring.new_monitor "monitoring_logs.csv" 100)
                  ticking_world))) =
     Nat.min (len (Monitoring.confidence_buffer
                     (Monitoring.new_monitor "monitoring_logs.csv" 100)) + 1)
             (Monitoring.window_size
                (Monitoring.new_monitor "monitoring_logs.csv" 100))) /\
  (forall c,
     Monitoring.item_confidence no_sentiment_dict = Some c ->
     Monitoring.item_sentiment no_sentiment_dict = None ->
     Monitoring.log_prediction_dict "Test" no_sentiment_dict
       (Monitoring.new_monitor "monitoring_logs.csv" 100) ticking_world =
     (Raise KeyError,
      Monitoring.set_buffers
        (deque_append
           (Monitoring.window_size
              (Monitoring.new_monitor "monitoring_logs.csv" 100))
           (Monitoring.confidence_buffer
              (Monitoring.new_monitor "monitoring_logs.csv" 100)) c)
        (Monitoring.sentiment_buffer
           (Monitoring.new_monitor "monitoring_logs.csv" 100))
        (Monitoring.new_monitor "monitoring_logs.csv" 100),
      mkWorld (clock ticking_world) (S (reads ticking_world))
              (files ticking_world)) /\
     len (deque_append
            (Monitoring.window_size
               (Monitoring.new_monitor "monitoring_logs.csv" 100))
            (Monitoring.confidence_buffer
               (Monitoring.new_monitor "monitoring_logs.csv" 100)) c) =
     Nat.min (len (Monitoring.sentiment_buffer
                     (Monitoring.new_monitor "monitoring_logs.csv" 100)) + 1)
             (Monitoring.window_size
                (Monitoring.new_monitor "monitoring_logs.csv" 100))).
Proof.
  assert (H : window_ok (Monitoring.new_monitor "monitoring_logs.csv" 100))
    by (split; cbn; lia).
  split; [exact H|].
  exact (log_prediction_keeps_window_ok "Test" no_sentiment_dict
           (Monitoring.new_monitor "monitoring_logs.csv" 100)
           ticking_world H).
Defined.

(** On a fresh monitor, the dictionary without a sentiment leaves one
    confidence and no sentiment in the window. *)
Example missing_sentiment_leaves_unequal_buffers :
  result_of (Monitoring.log_prediction_dict "Test" no_sentiment_dict
               (Monitoring.new_monitor "monitoring_logs.csv" 100)
               ticking_world) = Raise KeyError /\
  window (self_after
            (Monitoring.log_prediction_dict "Test" no_sentiment_dict
               (Monitoring.new_monitor "monitoring_logs.csv" 100)
               ticking_world)) = ([0.9%float], []).
Proof. split; vm_compute; reflexivity. Qed.

(** ** The two checks of [check_alerts] *)

(** What [check_alerts] returns from 10 entries on, when the sentiment
    buffer is not empty and the baseline has the three labels. *)
Lemma check_alerts_from_ten m w bn bu bp :
  10 <= len (Monitoring.confidence_buffer m) ->
  len (Monitoring.sentiment_buffer m) <> 0 ->
  dict_find label_eqb (Monitoring.baseline_distribution m) Negative = Some bn ->
  dict_find label_eqb (Monitoring.baseline_distribution m) Neutral = Some bu ->
  dict_find label_eqb (Monitoring.baseline_distribution m) Positive = Some bp ->
  Monitoring.check_alerts m w =
  (Ok ((if (Np.mean (Monitoring.confidence_buffer m)
            <? Monitoring.confidence_threshold m)%float
        then [low_alert m] else []) ++
       (if (Monitoring.drift_threshold m
            <? py_max (drift m Negative bn)
                      [drift m Neutral bu; drift m Positive bp])%float
        then [drift_alert m (py_max (drift m Negative bn)
                               [drift m Neutral bu; drift m Positive bp])]
        else [])),
   m, w).
Proof.
  intros Hten Hs Hn Hu Hp.
  unfold Monitoring.check_alerts. cbv [bind get_self].
  rewrite (proj2 (Nat.ltb_ge _ _) Hten).
  rewrite (label_shares_effect_free m w w), label_shares_result.
  destruct (len (Monitoring.sentiment_buffer m)) as [|n] eqn:En;
    [congruence|].
  unfold Monitoring.LABELS. cbn [map for_each].
  cbv [bind dict_get ret]. cbn [dict_find label_eqb].
  rewrite Hn, Hu, Hp.
  unfold low_alert, drift_alert, drift, share, Monitoring.LABELS.
  rewrite En. cbn [map app].
  destruct (_ <? Monitoring.confidence_threshold m)%float;
    destruct (Monitoring.drift_threshold m <? _)%float; reflexivity.
Qed.

(** X12: on a monitor whose two buffers have the same length and whose
    baseline has the three labels, [check_alerts] never raises and
    changes nothing; it returns at most two alerts, and it returns a
    [LOW_CONFIDENCE] alert exactly when the window holds at least 10
    entries and their mean is below the confidence threshold.  That
    alert comes first and has severity [WARNING]. *)
Theorem check_alerts_low_confidence_iff m w :
  len (Monitoring.confidence_buffer m) = len (Monitoring.sentiment_buffer m) ->
  baseline_ok m ->
  exists alerts,
    Monitoring.check_alerts m w = (Ok alerts, m, w) /\
    List.length alerts <= 2 /\
    (has_alert Monitoring.LOW_CONFIDENCE alerts <->
     10 <= len (Monitoring.confidence_buffer m) /\
     (Np.mean (Monitoring.confidence_buffer m)
      <? Monitoring.confidence_threshold m)%float = true) /\
    (has_alert Monitoring.LOW_CONFIDENCE alerts ->
     hd_error alerts = Some (low_alert m)).
Proof.
  intros Hlen (bn & bu & bp & Hn & Hu & Hp).
  destruct (Nat.lt_ge_cases (len (Monitoring.confidence_buffer m)) 10)
    as [Hlt|Hge].
  - exists []. rewrite (check_alerts_below_floor m w Hlt).
    split; [reflexivity|]. split; [cbn; lia|].
    split; [split|]; try (intros (a & [] & _)). intros [H _]. lia.
  - assert (Hs : len (Monitoring.sentiment_buffer m) <> 0) by lia.
    rewrite (check_alerts_from_ten m w bn bu bp Hge Hs Hn Hu Hp).
    eexists. split; [reflexivity|].
    destruct (_ <? Monitoring.confidence_threshold m)%float;
      destruct (Monitoring.drift_threshold m <? _)%float;
      cbn [app List.length hd_error];
      (split; [lia|]); (split; [split|]);
      try (intros _; split; [exact Hge|reflexivity]);
      try (intros _; reflexivity);
      try (intros [_ H]; discriminate H);
      try (intros _; exists (low_alert m); split; [left|]; reflexivity);
      intros (a & Hin & Ht); cbn in Hin;
      repeat (destruct Hin as [<-|Hin]; [discriminate Ht|]);
      destruct Hin.
Qed.

Lemma recorded_baseline_ok capacity n s c :
  baseline_ok (fst (recorded capacity n s c)).
Proof.
  unfold recorded, baseline_ok.
  destruct (fresh_window_buffers "monitoring_logs.csv" capacity ticking_world
              (repeat ("Test", mkResult s c
                         (dict_of label_eqb
                            [(Negative, 0.25%float); (Neutral, 0.45%float);
                             (Positive, 0.30%float)])) n))
    as (_ & _ & Hk).
  pose proof (f_equal (fun k => fst (fst (fst k))) Hk) as Hb.
  cbv beta in Hb. unfold config in Hb. cbn [fst] in Hb.
  rewrite Hb. exists 0.33%float, 0.34%float, 0.33%float. repeat split.
Qed.

Lemma check_alerts_low_confidence_iff_witness :
  len (Monitoring.confidence_buffer (fst (recorded 100 10 Positive 0.4%float)))
  = len (Monitoring.sentiment_buffer (fst (recorded 100 10 Positive 0.4%float)))
  /\
  baseline_ok (fst (recorded 100 10 Positive 0.4%float)) /\
  exists alerts,
    Monitoring.check_alerts (fst (recorded 100 10 Positive 0.4%float))
                            ticking_world =
      (Ok alerts, fst (recorded 100 10 Positive 0.4%float), ticking_world) /\
    List.length alerts <= 2 /\
    (has_alert Monitoring.LOW_CONFIDENCE alerts <->
     10 <= len (Monitoring.confidence_buffer
                  (fst (recorded 100 10 Positive 0.4%float))) /\
     (Np.mean (Monitoring.confidence_buffer
                 (fst (recorded 100 10 Positive 0.4%float)))
      <? Monitoring.confidence_threshold
           (fst (recorded 100 10 Positive 0.4%float)))%float = true) /\
    (has_alert Monitoring.LOW_CONFIDENCE alerts ->
     hd_error alerts = Some (low_alert (fst (recorded 100 10 Positive 0.4%float)))).
Proof.
  assert (H1 : len (Monitoring.confidence_buffer
                      (fst (recorded 100 10 Positive 0.4%float))) =
               len (Monitoring.sentiment_buffer
                      (fst (recorded 100 10 Positive 0.4%float))))
    by (vm_compute; reflexivity).
  split; [exact H1|]. split; [apply recorded_baseline_ok|].
  exact (check_alerts_low_confidence_iff _ ticking_world H1
           (recorded_baseline_ok 100 10 Positive 0.4%float)).
Defined.

(** ** The greatest distance to the baseline *)

Lemma np_lt_is_ltb a b : is_nan b = false -> Np.lt a b = (a <? b)%float.
Proof. intros H. unfold Np.lt. rewrite H. apply orb_false_r. Qed.

Lemma ltb_is_np_lt a b : (a <? b)%float = true -> Np.lt a b = true.
Proof. intros H. unfold Np.lt. rewrite H. reflexivity. Qed.

(** [py_max] returns an item of the sequence that no item exceeds. *)
Lemma py_max_is_greatest xs : forall x,
  (forall y, In y (x :: xs) -> is_nan y = false) ->
  In (py_max x xs) (x :: xs) /\
  forall y, In y (x :: xs) -> Np.lt (py_max x xs) y = false.
Proof.
  induction xs as [|z xs IH]; intros x Hnan.
  - cbn. split; [auto|]. intros y [<-|[]]. apply np_lt_irrefl.
  - change (py_max x (z :: xs))
      with (py_max (if (x <? z)%float then z else x) xs).
    set (x' := if (x <? z)%float then z else x).
    assert (Hx' : In x' [x; z]) by (unfold x'; destruct (x <? z)%float; cbn; auto).
    assert (Hxx : Np.lt x' x = false).
    { unfold x'. destruct (x <? z)%float eqn:E.
      - apply np_lt_asym, ltb_is_np_lt, E.
      - apply np_lt_irrefl. }
    assert (Hxz : Np.lt x' z = false).
    { unfold x'. destruct (x <? z)%float eqn:E.
      - apply np_lt_irrefl.
      - rewrite np_lt_is_ltb; [exact E|]. apply Hnan. cbn; auto. }
    destruct (IH x') as [Hin Hmax].
    { intros y [<-|Hy].
      - apply Hnan. destruct Hx' as [<-|[<-|[]]]; cbn; auto.
      - apply Hnan. cbn; auto. }
    split.
    + destruct Hin as [<-|Hin]; [|cbn; auto].
      destruct Hx' as [<-|[<-|[]]]; cbn; auto.
    + intros y [<-|[<-|Hy]].
      * apply (np_lt_negtrans _ x'); [|exact Hxx]. apply Hmax. cbn; auto.
      * apply (np_lt_negtrans _ x'); [|exact Hxz]. apply Hmax. cbn; auto.
      * apply Hmax. cbn; auto.
Qed.

(** A bound is below the maximum exactly when it is below some item. *)
Lemma py_max_exceeds t x xs :
  (forall y, In y (x :: xs) -> is_nan y = false) ->
  (t <? py_max x xs)%float = true <->
  exists y, In y (x :: xs) /\ (t <? y)%float = true.
Proof.
  intros Hnan. destruct (py_max_is_greatest xs x Hnan) as [Hin Hmax].
  split.
  - intros H. exists (py_max x xs). auto.
  - intros (y & Hy & Hty).
    destruct (t <? py_max x xs)%float eqn:E; [reflexivity|].
    assert (Np.lt t y = false).
    { apply (np_lt_negtrans _ (py_max x xs)); [|apply Hmax, Hy].
      rewrite np_lt_is_ltb; [exact E|]. apply Hnan, Hin. }
    rewrite (ltb_is_np_lt _ _ Hty) in H. discriminate.
Qed.

(** X13: on a monitor whose two buffers have the same length and whose
    baseline has the three labels, when none of the three distances
    between the share of a label in the window and its share in the
    baseline is NaN, [check_alerts] returns a [DISTRIBUTION_DRIFT] alert
    exactly when the window holds at least 10 entries and one of the
    three distances exceeds the drift threshold.  Such an alert has
    severity [INFO] and carries the three shares of the window. *)
Theorem check_alerts_drift_iff m w bn bu bp :
  len (Monitoring.confidence_buffer m) = len (Monitoring.sentiment_buffer m) ->
  dict_find label_eqb (Monitoring.baseline_distribution m) Negative = Some bn ->
  dict_find label_eqb (Monitoring.baseline_distribution m) Neutral = Some bu ->
  dict_find label_eqb (Monitoring.baseline_distribution m) Positive = Some bp ->
  is_nan (drift m Negative bn) = false ->
  is_nan (drift m Neutral bu) = false ->
  is_nan (drift m Positive bp) = false ->
  exists alerts,
    result_of (Monitoring.check_alerts m w) = Ok alerts /\
    (has_alert Monitoring.DISTRIBUTION_DRIFT alerts <->
     10 <= len (Monitoring.confidence_buffer m) /\
     ((Monitoring.drift_threshold m <? drift m Negative bn)%float = true \/
      (Monitoring.drift_threshold m <? drift m Neutral bu)%float = true \/
      (Monitoring.drift_threshold m <? drift m Positive bp)%float = true)) /\
    (forall a, In a alerts ->
       Monitoring.type a = Monitoring.DISTRIBUTION_DRIFT ->
       Monitoring.severity a = Monitoring.INFO /\
       Monitoring.current_distribution a =
         Some (map (fun s => (s, share m s)) Monitoring.LABELS)).
Proof.
  intros Hlen Hn Hu Hp Nn Nu Np.
  destruct (Nat.lt_ge_cases (len (Monitoring.confidence_buffer m)) 10)
    as [Hlt|Hge].
  - exists []. rewrite (check_alerts_below_floor m w Hlt).
    split; [reflexivity|]. split; [split|].
    + intros (a & [] & _).
    + intros [H _]. lia.
    + intros a [].
  - assert (Hs : len (Monitoring.sentiment_buffer m) <> 0) by lia.
    rewrite (check_alerts_from_ten m w bn bu bp Hge Hs Hn Hu Hp).
    eexists. split; [reflexivity|].
    assert (Hmax := py_max_exceeds (Monitoring.drift_threshold m)
                      (drift m Negative bn)
                      [drift m Neutral bu; drift m Positive bp]).
    destruct Hmax as [Hmax1 Hmax2].
    { intros y [<-|[<-|[<-|[]]]]; assumption. }
    split; [split|].
    + intros (a & Hin & Ht). split; [exact Hge|].
      destruct (Monitoring.drift_threshold m <? py_max _ _)%float eqn:E.
      * destruct (Hmax1 eq_refl) as (y & [<-|[<-|[<-|[]]]] & Hy); auto.
      * rewrite app_nil_r in Hin.
        destruct (_ <? Monitoring.confidence_threshold m)%float;
          cbn in Hin; [destruct Hin as [<-|[]]; discriminate Ht|destruct Hin].
    + intros [_ H].
      rewrite Hmax2.
      * eexists. split; [apply in_or_app; right; left; reflexivity|].
        reflexivity.
      * destruct H as [H|[H|H]]; eexists; (split; [|exact H]); cbn; auto.
    + intros a Hin Ht. apply in_app_or in Hin as [Hin|Hin].
      * destruct (_ <? Monitoring.confidence_threshold m)%float;
          cbn in Hin; [destruct Hin as [<-|[]]; discriminate Ht|destruct Hin].
      * destruct (Monitoring.drift_threshold m <? py_max _ _)%float;
          cbn in Hin; [destruct Hin as [<-|[]]; split; reflexivity|destruct Hin].
Qed.

Lemma check_alerts_drift_iff_witness :
  len (Monitoring.confidence_buffer (fst (recorded 100 20 Positive 0.9%float)))
  = len (Monitoring.sentiment_buffer (fst (recorded 100 20 Positive 0.9%float)))
  /\
  dict_find label_eqb
    (Monitoring.baseline_distribution (fst (recorded 100 20 Positive 0.9%float)))
    Negative = Some 0.33%float /\
  dict_find label_eqb
    (Monitoring.baseline_distribution (fst (recorded 100 20 Positive 0.9%float)))
    Neutral = Some 0.34%float /\
  dict_find label_eqb
    (Monitoring.baseline_distribution (fst (recorded 100 20 Positive 0.9%float)))
    Positive = Some 0.33%float /\
  is_nan (drift (fst (recorded 100 20 Positive 0.9%float)) Negative 0.33%float)
  = false /\
  is_nan (drift (fst (recorded 100 20 Positive 0.9%float)) Neutral 0.34%float)
  = false /\
  is_nan (drift (fst (recorded 100 20 Positive 0.9%float)) Positive 0.33%float)
  = false /\
  exists alerts,
    result_of (Monitoring.check_alerts
                 (fst (recorded 100 20 Positive 0.9%float)) ticking_world)
    = Ok alerts /\
    (has_alert Monitoring.DISTRIBUTION_DRIFT alerts <->
     10 <= len (Monitoring.confidence_buffer
                  (fst (recorded 100 20 Positive 0.9%float))) /\
     ((Monitoring.drift_threshold (fst (recorded 100 20 Positive 0.9%float))
       <? drift (fst (recorded 100 20 Positive 0.9%float)) Negative
                0.33%float)%float = true \/
      (Monitoring.drift_threshold (fst (recorded 100 20 Positive 0.9%float))
       <? drift (fst (recorded 100 20 Positive 0.9%float)) Neutral
                0.34%float)%float = true \/
      (Monitoring.drift_threshold (fst (recorded 100 20 Positive 0.9%float))
       <? drift (fst (recorded 100 20 Positive 0.9%float)) Positive
                0.33%float)%float = true)) /\
    (forall a, In a alerts ->
       Monitoring.type a = Monitoring.DISTRIBUTION_DRIFT ->
       Monitoring.severity a = Monitoring.INFO /\
       Monitoring.current_distribution a =
         Some (map (fun s => (s, share (fst (recorded 100 20 Positive 0.9%float)) s))
                   Monitoring.LABELS)).
Proof.
  split; [vm_compute; reflexivity|].
  split; [vm_compute; reflexivity|].
  split; [vm_compute; reflexivity|].
  split; [vm_compute; reflexivity|].
  split; [vm_compute; reflexivity|].
  split; [vm_compute; reflexivity|].
  split; [vm_compute; reflexivity|].
  apply (check_alerts_drift_iff (fst (recorded 100 20 Positive 0.9%float))
           ticking_world 0.33%float 0.34%float 0.33%float);
    vm_compute; reflexivity.
Defined.

(** X14: when the baseline has no share for one of the three labels,
    [check_alerts] still returns the empty list below 10 entries, and
    raises [KeyError] from 10 entries on, on a monitor whose sentiment
    buffer is not empty. *)
Theorem check_alerts_needs_full_baseline m w s :
  dict_find label_eqb (Monitoring.baseline_distribution m) s = None ->
  len (Monitoring.sentiment_buffer m) <> 0 ->
  (len (Monitoring.confidence_buffer m) < 10 ->
   Monitoring.check_alerts m w = (Ok [], m, w)) /\
  (10 <= len (Monitoring.confidence_buffer m) ->
   Monitoring.check_alerts m w = (Raise KeyError, m, w)).
Proof.
  intros Hnone Hs. split; [apply check_alerts_below_floor|].
  intros Hten.
  unfold Monitoring.check_alerts. cbv [bind get_self].
  rewrite (proj2 (Nat.ltb_ge _ _) Hten).
  rewrite (label_shares_effect_free m w w), label_shares_result.
  destruct (len (Monitoring.sentiment_buffer m)) as [|n] eqn:En;
    [congruence|].
  unfold Monitoring.LABELS. cbn [map for_each].
  cbv [bind dict_get ret raise]. cbn [dict_find label_eqb].
  destruct (dict_find label_eqb (Monitoring.baseline_distribution m) Negative)
    eqn:E1; [|reflexivity].
  destruct (dict_find label_eqb (Monitoring.baseline_distribution m) Neutral)
    eqn:E2; [|reflexivity].
  destruct (dict_find label_eqb (Monitoring.baseline_distribution m) Positive)
    eqn:E3; [|reflexivity].
  destruct s; congruence.
Qed.

Lemma check_alerts_needs_full_baseline_witness :
  dict_find label_eqb
    (Monitoring.baseline_distribution (two_label_baseline 10)) Neutral = None /\
  len (Monitoring.sentiment_buffer (two_label_baseline 10)) <> 0 /\
  (len (Monitoring.confidence_buffer (two_label_baseline 10)) < 10 ->
   Monitoring.check_alerts (two_label_baseline 10) ticking_world =
   (Ok [], two_label_baseline 10, ticking_world)) /\
  (10 <= len (Monitoring.confidence_buffer (two_label_baseline 10)) ->
   Monitoring.check_alerts (two_label_baseline 10) ticking_world =
   (Raise KeyError, two_label_baseline 10, ticking_world)).
Proof.
  split; [reflexivity|].
  split; [vm_compute; discriminate|].
  apply (check_alerts_needs_full_baseline (two_label_baseline 10)
           ticking_world Neutral);
    [reflexivity|vm_compute; discriminate].
Defined.

(** ** Summation *)

Lemma half_block_bounds n :
  128 < n ->
  0 < n / 2 - (n / 2) mod 8 /\ n / 2 - (n / 2) mod 8 < n.
Proof.
  intros H.
  pose proof (Nat.div_mod_eq n 2) as E.
  pose proof (Nat.mod_upper_bound n 2 ltac:(lia)) as B2.
  pose proof (Nat.mod_upper_bound (n / 2) 8 ltac:(lia)) as B8.
  lia.
Qed.

(** With the length of the run as fuel, or more, the bound on the
    recursion is never reached: the sum is the same for every such
    fuel. *)
Lemma pairwise_sum_fuel f1 : forall f2 a,
  List.length a <= f1 -> List.length a <= f2 ->
  Np.pairwise_sum f1 a = Np.pairwise_sum f2 a.
Proof.
  induction f1 as [|f1 IH]; intros f2 a H1 H2.
  - destruct a; [|cbn in H1; lia]. destruct f2; reflexivity.
  - cbn [Np.pairwise_sum].
    destruct (Nat.leb_spec (List.length a) 128) as [Hs|Hl].
    + destruct f2; cbn [Np.pairwise_sum];
        rewrite (proj2 (Nat.leb_le _ _) Hs); reflexivity.
    + destruct f2 as [|f2]; [lia|]. cbn [Np.pairwise_sum].
      rewrite (proj2 (Nat.leb_gt _ _) Hl).
      destruct (half_block_bounds _ Hl) as [Hpos Hlt].
      set (n2 := List.length a / 2 - (List.length a / 2) mod 8) in *.
      rewrite (IH f2 (firstn n2 a)), (IH f2 (skipn n2 a));
        rewrite ?length_firstn, ?length_skipn; try lia.
      reflexivity.
Qed.

(** ** NaN in the window *)

Lemma add_nan_l x y : is_nan x = true -> is_nan (x + y)%float = true.
Proof.
  rewrite !is_nan_spec, add_spec. destruct (Prim2SF x); try discriminate.
  reflexivity.
Qed.

Lemma add_nan_r x y : is_nan y = true -> is_nan (x + y)%float = true.
Proof.
  rewrite !is_nan_spec, add_spec.
  destruct (Prim2SF y); try discriminate.
  destruct (Prim2SF x); reflexivity.
Qed.

Lemma div_nan_l x y : is_nan x = true -> is_nan (x / y)%float = true.
Proof.
  rewrite !is_nan_spec, div_spec. destruct (Prim2SF x); try discriminate.
  reflexivity.
Qed.

Lemma sub_nan_l x y : is_nan x = true -> is_nan (x - y)%float = true.
Proof.
  rewrite !is_nan_spec, sub_spec. destruct (Prim2SF x); try discriminate.
  reflexivity.
Qed.

Lemma ltb_nan_l x y : is_nan x = true -> (x <? y)%float = false.
Proof.
  rewrite is_nan_spec, ltb_spec. destruct (Prim2SF x); try discriminate.
  reflexivity.
Qed.

Lemma ltb_nan_r x y : is_nan y = true -> (x <? y)%float = false.
Proof.
  rewrite is_nan_spec, ltb_spec. destruct (Prim2SF y); try discriminate.
  destruct (Prim2SF x); reflexivity.
Qed.

Lemma fold_add_nan_acc l : forall acc,
  is_nan acc = true -> is_nan (fold_left PrimFloat.add l acc) = true.
Proof.
  induction l as [|y l IH]; intros acc H; cbn; [exact H|].
  apply IH, add_nan_l, H.
Qed.

Lemma fold_add_nan_item l x : forall acc,
  In x l -> is_nan x = true -> is_nan (fold_left PrimFloat.add l acc) = true.
Proof.
  induction l as [|y l IH]; intros acc Hin Hx; [destruct Hin|].
  cbn. destruct Hin as [->|Hin].
  - apply fold_add_nan_acc, add_nan_r, Hx.
  - apply IH; assumption.
Qed.

Ltac nan_sum :=
  first [ assumption
        | apply add_nan_l; nan_sum
        | apply add_nan_r; nan_sum ].

Ltac nan_lane :=
  first [ nan_sum | left; nan_sum | right; nan_lane ].

Lemma lanes_total_nan r : lanes_nan r -> is_nan (Np.lanes_total r) = true.
Proof.
  destruct r as [[[[[[[r0 r1] r2] r3] r4] r5] r6] r7].
  unfold lanes_nan, Np.lanes_total.
  intros [H|[H|[H|[H|[H|[H|[H|H]]]]]]]; nan_sum.
Qed.

(** A NaN among the partial sums or among the items still to add makes
    the total NaN. *)
Lemma add_blocks_nan n : forall a r,
  List.length a <= n ->
  lanes_nan r \/ (exists x, In x a /\ is_nan x = true) ->
  is_nan (Np.add_blocks r a) = true.
Proof.
  induction n as [|n IH]; intros a r Hlen H.
  - destruct a; [|cbn in Hlen; lia]. cbn.
    destruct H as [H|(x & [] & _)]. apply lanes_total_nan, H.
  - destruct a as [|b0 [|b1 [|b2 [|b3 [|b4 [|b5 [|b6 [|b7 rest]]]]]]]];
      cbn [Np.add_blocks];
      try (destruct H as [H|(x & Hin & Hx)];
           [apply fold_add_nan_acc, lanes_total_nan, H
           |apply (fold_add_nan_item _ x); assumption]).
    destruct r as [[[[[[[r0 r1] r2] r3] r4] r5] r6] r7].
    apply IH; [cbn in Hlen; lia|].
    destruct H as [H|(x & Hin & Hx)].
    + left. unfold lanes_nan in *.
      destruct H as [H|[H|[H|[H|[H|[H|[H|H]]]]]]]; nan_lane.
    + cbn [In] in Hin.
      destruct Hin as [<-|[<-|[<-|[<-|[<-|[<-|[<-|[<-|Hin]]]]]]]];
        try (left; unfold lanes_nan; nan_lane).
      right. exists x. auto.
Qed.

Lemma block_sum_nan a x :
  In x a -> is_nan x = true -> is_nan (Np.block_sum a) = true.
Proof.
  intros Hin Hx. unfold Np.block_sum.
  destruct a as [|a0 [|a1 [|a2 [|a3 [|a4 [|a5 [|a6 [|a7 rest]]]]]]]];
    try (apply (fold_add_nan_item _ x); assumption).
  apply (add_blocks_nan (List.length rest)); [lia|].
  cbn [In] in Hin.
  destruct Hin as [<-|[<-|[<-|[<-|[<-|[<-|[<-|[<-|Hin]]]]]]]];
    try (left; unfold lanes_nan; nan_lane).
  right. exists x. auto.
Qed.

Lemma pairwise_sum_nan fuel : forall a x,
  In x a -> is_nan x = true -> is_nan (Np.pairwise_sum fuel a) = true.
Proof.
  induction fuel as [|fuel IH]; intros a x Hin Hx; cbn [Np.pairwise_sum];
    destruct (Nat.leb (List.length a) 128);
    try (apply (block_sum_nan a x); assumption).
  set (n2 := List.length a / 2 - (List.length a / 2) mod 8).
  rewrite <- (firstn_skipn n2 a) in Hin.
  apply in_app_or in Hin as [Hin|Hin].
  - apply add_nan_l, (IH _ x); assumption.
  - apply add_nan_r, (IH _ x); assumption.
Qed.

(** The mean of a sequence that holds a NaN is NaN. *)
Lemma mean_nan l x : In x l -> is_nan x = true -> is_nan (Np.mean l) = true.
Proof.
  intros Hin Hx. unfold Np.mean, Np.sum.
  apply div_nan_l, add_nan_r, (pairwise_sum_nan _ l x); assumption.
Qed.

(** X15: a NaN confidence anywhere in the window silences the
    low-confidence check: on a monitor whose two buffers have the same
    length and whose baseline has the three labels, [check_alerts]
    returns no [LOW_CONFIDENCE] alert, however low the other confidences
    are. *)
Theorem nan_in_window_silences_low_confidence m w x :
  len (Monitoring.confidence_buffer m) = len (Monitoring.sentiment_buffer m) ->
  baseline_ok m ->
  In x (Monitoring.confidence_buffer m) ->
  is_nan x = true ->
  exists alerts,
    result_of (Monitoring.check_alerts m w) = Ok alerts /\
    ~ has_alert Monitoring.LOW_CONFIDENCE alerts.
Proof.
  intros Hlen (bn & bu & bp & Hn & Hu & Hp) Hin Hx.
  destruct (Nat.lt_ge_cases (len (Monitoring.confidence_buffer m)) 10)
    as [Hlt|Hge].
  - exists []. rewrite (check_alerts_below_floor m w Hlt).
    split; [reflexivity|]. intros (a & [] & _).
  - assert (Hs : len (Monitoring.sentiment_buffer m) <> 0) by lia.
    rewrite (check_alerts_from_ten m w bn bu bp Hge Hs Hn Hu Hp).
    rewrite (ltb_nan_l _ _ (mean_nan _ x Hin Hx)).
    eexists. split; [reflexivity|].
    intros (a & Ha & Ht). cbn [app] in Ha.
    destruct (Monitoring.drift_threshold m <? _)%float; cbn in Ha;
      [destruct Ha as [<-|[]]; discriminate Ht|destruct Ha].
Qed.

Lemma poisoned_baseline_ok : baseline_ok (fst poisoned).
Proof.
  unfold poisoned, baseline_ok.
  destruct (fresh_window_buffers "monitoring_logs.csv" 20 ticking_world
              (repeat ("Test", sample Negative 0.1%float) 19 ++
               [("Test", nan_result)]))
    as (_ & _ & Hk).
  pose proof (f_equal (fun k => fst (fst (fst k))) Hk) as Hb.
  cbv beta in Hb. unfold config in Hb. cbn [fst] in Hb.
  rewrite Hb. exists 0.33%float, 0.34%float, 0.33%float. repeat split.
Qed.

Lemma nan_in_window_silences_low_confidence_witness :
  len (Monitoring.confidence_buffer (fst poisoned)) =
    len (Monitoring.sentiment_buffer (fst poisoned)) /\
  baseline_ok (fst poisoned) /\
  In nan (Monitoring.confidence_buffer (fst poisoned)) /\
  is_nan nan = true /\
  exists alerts,
    result_of (Monitoring.check_alerts (fst poisoned) (snd poisoned))
    = Ok alerts /\
    ~ has_alert Monitoring.LOW_CONFIDENCE alerts.
Proof.
  assert (H1 : len (Monitoring.confidence_buffer (fst poisoned)) =
               len (Monitoring.sentiment_buffer (fst poisoned)))
    by (vm_compute; reflexivity).
  assert (H2 : In nan (Monitoring.confidence_buffer (fst poisoned))).
  { replace (Monitoring.confidence_buffer (fst poisoned))
      with (repeat 0.1%float 19 ++ [nan]) by (vm_compute; reflexivity).
    apply in_or_app. right. left. reflexivity. }
  split; [exact H1|]. split; [exact poisoned_baseline_ok|].
  split; [exact H2|]. split; [reflexivity|].
  exact (nan_in_window_silences_low_confidence (fst poisoned) (snd poisoned)
           nan H1 poisoned_baseline_ok H2 eq_refl).
Defined.

Lemma in_slice_to {A} n (l : list A) x : In x (slice_to n l) -> In x l.
Proof.
  unfold slice_to. intros H. rewrite <- (firstn_skipn n l).
  apply in_or_app. left. exact H.
Qed.

Lemma in_slice_last {A} n (l : list A) x : In x (slice_last n l) -> In x l.
Proof.
  unfold slice_last. intros H.
  rewrite <- (firstn_skipn (List.length l - n) l).
  apply in_or_app. right. exact H.
Qed.

(** X16: a NaN confidence among the 20 oldest or the 20 newest entries
    of a full window silences the retraining decision: [should_retrain]
    returns [(False, "Performance nella norma")], however low the other
    confidences are. *)
Theorem nan_in_window_silences_retraining m w x :
  Monitoring.window_size m <= len (Monitoring.confidence_buffer m) ->
  In x (slice_to 20 (Monitoring.confidence_buffer m)) \/
  In x (slice_last 20 (Monitoring.confidence_buffer m)) ->
  is_nan x = true ->
  Monitoring.should_retrain m w =
  (Ok (false, [Lit "Performance nella norma"]), m, w).
Proof.
  intros Hfull Hin Hx.
  assert (Hall : In x (Monitoring.confidence_buffer m))
    by (destruct Hin as [H|H];
        [apply (in_slice_to _ _ _ H)|apply (in_slice_last _ _ _ H)]).
  unfold Monitoring.should_retrain. cbv [bind get_self].
  rewrite (proj2 (Nat.ltb_ge _ _) Hfull).
  rewrite (ltb_nan_l _ _ (mean_nan _ x Hall Hx)).
  destruct Hin as [H|H].
  - rewrite (ltb_nan_r _ _ (sub_nan_l _ _ (mean_nan _ x H Hx))). reflexivity.
  - rewrite (ltb_nan_l _ _ (mean_nan _ x H Hx)). reflexivity.
Qed.

Lemma nan_in_window_silences_retraining_witness :
  Monitoring.window_size (fst poisoned) <=
    len (Monitoring.confidence_buffer (fst poisoned)) /\
  (In nan (slice_to 20 (Monitoring.confidence_buffer (fst poisoned))) \/
   In nan (slice_last 20 (Monitoring.confidence_buffer (fst poisoned)))) /\
  is_nan nan = true /\
  Monitoring.should_retrain (fst poisoned) (snd poisoned) =
  (Ok (false, [Lit "Performance nella norma"]), fst poisoned, snd poisoned).
Proof.
  assert (H1 : Monitoring.window_size (fst poisoned) <=
               len (Monitoring.confidence_buffer (fst poisoned)))
    by (vm_compute; lia).
  assert (H2 : In nan (slice_to 20 (Monitoring.confidence_buffer (fst poisoned)))
               \/ In nan (slice_last 20
                            (Monitoring.confidence_buffer (fst poisoned)))).
  { left.
    replace (slice_to 20 (Monitoring.confidence_buffer (fst poisoned)))
      with (repeat 0.1%float 19 ++ [nan]) by (vm_compute; reflexivity).
    apply in_or_app. right. left. reflexivity. }
  split; [exact H1|]. split; [exact H2|]. split; [reflexivity|].
  exact (nan_in_window_silences_retraining (fst poisoned) (snd poisoned)
           nan H1 H2 eq_refl).
Defined.

(** ** The history of retrainings *)

Lemma check_and_retrain_not_warranted mgr w reason :
  result_of (Monitoring.should_retrain (Retrain.monitor mgr) w) =
    Ok (false, reason) ->
  Retrain.check_and_retrain mgr w =
  (Ok (Retrain.Skipped "skipped" reason (isoformat (clock w (reads w)))),
   mgr, mkWorld (clock w) (S (reads w)) (files w)).
Proof.
  intros H. unfold Retrain.check_and_retrain.
  cbv [bind on_field now get_self set_self ret].
  rewrite (should_retrain_effect_free (Retrain.monitor mgr) w w), H.
  destruct mgr as [mon hist]. reflexivity.
Qed.

(** X17: while the monitor does not ask for retraining,
    [check_and_retrain] returns the "skipped" dictionary with the
    monitor's reason and the time of the call, and any number of calls
    leaves the manager, its history included, as it was; each call reads
    the clock once and no file is written. *)
Theorem check_and_retrain_skips n : forall mgr w reason,
  result_of (Monitoring.should_retrain (Retrain.monitor mgr) w) =
    Ok (false, reason) ->
  result_of (Retrain.check_and_retrain mgr w) =
    Ok (Retrain.Skipped "skipped" reason (isoformat (clock w (reads w)))) /\
  fst (retrain_calls n mgr w) = mgr /\
  reads (snd (retrain_calls n mgr w)) = reads w + n /\
  files (snd (retrain_calls n mgr w)) = files w.
Proof.
  induction n as [|n IH]; intros mgr w reason H.
  - rewrite (check_and_retrain_not_warranted mgr w reason H).
    cbn. repeat split. lia.
  - pose proof (check_and_retrain_not_warranted mgr w reason H) as E.
    split; [rewrite E; reflexivity|].
    cbn [retrain_calls]. rewrite E. cbn [self_after world_after fst snd].
    destruct (IH mgr (mkWorld (clock w) (S (reads w)) (files w)) reason)
      as (_ & Hm & Hr & Hf).
    { rewrite <- H. apply should_retrain_result. }
    rewrite Hm, Hr, Hf. cbn [reads files]. repeat split. lia.
Qed.

Lemma check_and_retrain_skips_witness :
  result_of (Monitoring.should_retrain
               (Retrain.monitor
                  (Retrain.init (fst (recorded 100 50 Neutral 0.45%float))))
               (snd (recorded 100 50 Neutral 0.45%float))) =
    Ok (false, [Lit "Dati insufficienti per la valutazione"]) /\
  result_of (Retrain.check_and_retrain
               (Retrain.init (fst (recorded 100 50 Neutral 0.45%float)))
               (snd (recorded 100 50 Neutral 0.45%float))) =
    Ok (Retrain.Skipped "skipped"
          [Lit "Dati insufficienti per la valutazione"]
          (isoformat (clock (snd (recorded 100 50 Neutral 0.45%float))
                            (reads (snd (recorded 100 50 Neutral 0.45%float))))))
  /\
  fst (retrain_calls 3
         (Retrain.init (fst (recorded 100 50 Neutral 0.45%float)))
         (snd (recorded 100 50 Neutral 0.45%float))) =
    Retrain.init (fst (recorded 100 50 Neutral 0.45%float)) /\
  reads (snd (retrain_calls 3
                (Retrain.init (fst (recorded 100 50 Neutral 0.45%float)))
                (snd (recorded 100 50 Neutral 0.45%float)))) =
    reads (snd (recorded 100 50 Neutral 0.45%float)) + 3 /\
  files (snd (retrain_calls 3
                (Retrain.init (fst (recorded 100 50 Neutral 0.45%float)))
                (snd (recorded 100 50 Neutral 0.45%float)))) =
    files (snd (recorded 100 50 Neutral 0.45%float)).
Proof.
  assert (H : result_of (Monitoring.should_retrain
                 (Retrain.monitor
                    (Retrain.init (fst (recorded 100 50 Neutral 0.45%float))))
                 (snd (recorded 100 50 Neutral 0.45%float))) =
              Ok (false, [Lit "Dati insufficienti per la valutazione"]))
    by (vm_compute; reflexivity).
  split; [exact H|].
  exact (check_and_retrain_skips 3
           (Retrain.init (fst (recorded 100 50 Neutral 0.45%float)))
           (snd (recorded 100 50 Neutral 0.45%float)) _ H).
Defined.

(** X18: while the monitor asks for retraining, every call of
    [check_and_retrain] appends one record: after [n] calls the history
    is the old history followed by [n] records, each "completed" with
    the fixed accuracies 0.72 and 0.75, the monitor is the same, and
    [get_retraining_history] returns that list. *)
Theorem check_and_retrain_appends_each_time n : forall mgr w reason,
  result_of (Monitoring.should_retrain (Retrain.monitor mgr) w) =
    Ok (true, reason) ->
  exists new,
    Retrain.retraining_history (fst (retrain_calls n mgr w)) =
      Retrain.retraining_history mgr ++ new /\
    List.length new = n /\
    Forall (fun r => Retrain.status r = "completed" /\
                     Retrain.metrics r =
                       Retrain.mkRetrainMetrics 0.72 0.75 "+3%") new /\
    Retrain.monitor (fst (retrain_calls n mgr w)) = Retrain.monitor mgr /\
    result_of (Retrain.get_retraining_history
                 (fst (retrain_calls n mgr w)) (snd (retrain_calls n mgr w)))
    = Ok (Retrain.retraining_history mgr ++ new).
Proof.
  induction n as [|n IH]; intros mgr w reason H.
  - exists []. cbn. rewrite app_nil_r. auto.
  - pose proof (check_and_retrain_warranted mgr w reason H) as E.
    cbv zeta in E. cbn [retrain_calls]. rewrite E.
    cbn [self_after world_after fst snd].
    match goal with
    | |- context [retrain_calls n ?mgr1 ?w1] =>
        destruct (IH mgr1 w1 reason) as (new & Hh & Hl & Hf & Hm & Hg)
    end.
    { cbn [Retrain.monitor]. rewrite <- H. apply should_retrain_result. }
    cbn [Retrain.retraining_history Retrain.monitor] in Hh, Hm, Hg.
    rewrite <- app_assoc in Hh, Hg.
    eexists. split; [exact Hh|].
    split; [cbn; rewrite Hl; reflexivity|].
    split; [constructor; [split; reflexivity|exact Hf]|].
    split; [exact Hm|exact Hg].
Qed.

Lemma check_and_retrain_appends_each_time_witness :
  result_of (Monitoring.should_retrain (Retrain.monitor critical_manager)
                                       fast_world) =
    Ok (true, [Lit "Confidenza critica: ";
               Pct2 (Np.mean (repeat 0.45%float 100))]) /\
  exists new,
    Retrain.retraining_history
      (fst (retrain_calls 3 critical_manager fast_world)) =
      Retrain.retraining_history critical_manager ++ new /\
    List.length new = 3 /\
    Forall (fun r => Retrain.status r = "completed" /\
                     Retrain.metrics r =
                       Retrain.mkRetrainMetrics 0.72 0.75 "+3%") new /\
    Retrain.monitor (fst (retrain_calls 3 critical_manager fast_world)) =
      Retrain.monitor critical_manager /\
    result_of (Retrain.get_retraining_history
                 (fst (retrain_calls 3 critical_manager fast_world))
                 (snd (retrain_calls 3 critical_manager fast_world)))
    = Ok (Retrain.retraining_history critical_manager ++ new).
Proof.
  assert (H : result_of (Monitoring.should_retrain
                           (Retrain.monitor critical_manager) fast_world) =
              Ok (true, [Lit "Confidenza critica: ";
                         Pct2 (Np.mean (repeat 0.45%float 100))]))
    by (vm_compute; reflexivity).
  split; [exact H|].
  exact (check_and_retrain_appends_each_time 3 critical_manager fast_world
           _ H).
Defined.

(** ** The summary report *)

Lemma get_current_metrics_returns m w :
  len (Monitoring.confidence_buffer m) = len (Monitoring.sentiment_buffer m) ->
  exists metrics w',
    Monitoring.get_current_metrics m w = (Ok metrics, m, w') /\
    files w' = files w /\
    reads w' <= S (reads w).
Proof.
  intros Hlen. unfold Monitoring.get_current_metrics. cbv [bind get_self].
  destruct (Nat.eqb_spec (len (Monitoring.confidence_buffer m)) 0) as [E|E].
  - eexists _, _. split; [reflexivity|]. split; [reflexivity|lia].
  - rewrite (label_shares_effect_free m w w), label_shares_result.
    rewrite <- Hlen.
    destruct (Monitoring.confidence_buffer m) as [|c cs]; [cbn in E; lia|].
    cbn [len List.length Np.min Np.max]. cbv [ret now].
    eexists _, _. split; [reflexivity|]. cbn. split; [reflexivity|lia].
Qed.

Lemma check_alerts_returns m w :
  len (Monitoring.confidence_buffer m) = len (Monitoring.sentiment_buffer m) ->
  baseline_ok m ->
  exists alerts, Monitoring.check_alerts m w = (Ok alerts, m, w).
Proof.
  intros Hlen (bn & bu & bp & Hn & Hu & Hp).
  destruct (Nat.lt_ge_cases (len (Monitoring.confidence_buffer m)) 10)
    as [Hlt|Hge].
  - exists []. apply check_alerts_below_floor, Hlt.
  - eexists.
    apply (check_alerts_from_ten m w bn bu bp Hge ltac:(lia) Hn Hu Hp).
Qed.

Lemma should_retrain_returns m w :
  exists verdict, Monitoring.should_retrain m w = (Ok verdict, m, w).
Proof.
  unfold Monitoring.should_retrain. cbv [bind get_self].
  destruct (Nat.ltb _ _); [eexists; reflexivity|].
  destruct (_ <? 0.5)%float; [eexists; reflexivity|].
  destruct (_ <? _)%float; eexists; reflexivity.
Qed.

(** X19: on a monitor whose two buffers have the same length and whose
    baseline has the three labels, the empty monitor included,
    [get_summary_report] returns a report and never raises; it leaves
    the monitor as it was, writes no file, and reads the clock at most
    once. *)
Theorem get_summary_report_returns m w :
  len (Monitoring.confidence_buffer m) = len (Monitoring.sentiment_buffer m) ->
  baseline_ok m ->
  exists report,
    result_of (Monitoring.get_summary_report m w) = Ok report /\
    self_after (Monitoring.get_summary_report m w) = m /\
    files (world_after (Monitoring.get_summary_report m w)) = files w /\
    reads (world_after (Monitoring.get_summary_report m w)) <= S (reads w).
Proof.
  intros Hlen Hb.
  destruct (get_current_metrics_returns m w Hlen) as (metrics & w' & Em & Hf & Hr).
  destruct (check_alerts_returns m w' Hlen Hb) as (alerts & Ea).
  destruct (should_retrain_returns m w') as ([needed reason] & Es).
  unfold Monitoring.get_summary_report. cbv [bind].
  rewrite Em, Ea, Es. cbv [ret].
  eexists. cbn [result_of self_after world_after fst snd]. auto.
Qed.

(** The witness is the window after 20 recordings labelled Positive
    with confidence 0.9, on which the three queries all compute. *)
Lemma get_summary_report_returns_witness :
  len (Monitoring.confidence_buffer (fst (recorded 100 20 Positive 0.9%float)))
  = len (Monitoring.sentiment_buffer (fst (recorded 100 20 Positive 0.9%float)))
  /\
  baseline_ok (fst (recorded 100 20 Positive 0.9%float)) /\
  exists report,
    result_of (Monitoring.get_summary_report
                 (fst (recorded 100 20 Positive 0.9%float))
                 (snd (recorded 100 20 Positive 0.9%float))) = Ok report /\
    self_after (Monitoring.get_summary_report
                  (fst (recorded 100 20 Positive 0.9%float))
                  (snd (recorded 100 20 Positive 0.9%float))) =
      fst (recorded 100 20 Positive 0.9%float) /\
    files (world_after (Monitoring.get_summary_report
                          (fst (recorded 100 20 Positive 0.9%float))
                          (snd (recorded 100 20 Positive 0.9%float)))) =
      files (snd (recorded 100 20 Positive 0.9%float)) /\
    reads (world_after (Monitoring.get_summary_report
                          (fst (recorded 100 20 Positive 0.9%float))
                          (snd (recorded 100 20 Positive 0.9%float)))) <=
      S (reads (snd (recorded 100 20 Positive 0.9%float))).
Proof.
  assert (H1 : len (Monitoring.confidence_buffer
                      (fst (recorded 100 20 Positive 0.9%float))) =
               len (Monitoring.sentiment_buffer
                      (fst (recorded 100 20 Positive 0.9%float))))
    by (vm_compute; reflexivity).
  split; [exact H1|]. split; [apply recorded_baseline_ok|].
  exact (get_summary_report_returns
           (fst (recorded 100 20 Positive 0.9%float))
           (snd (recorded 100 20 Positive 0.9%float)) H1
           (recorded_baseline_ok 100 20 Positive 0.9%float)).
Defined.

(** On that window the report has the time of the call, 20 predictions,
    the three shares, and one alert; the window is not full, so no
    retraining is asked for. *)
Example summary_report_of_twenty_positive :
  result_of (Monitoring.get_summary_report
               (fst (recorded 100 20 Positive 0.9%float))
               (snd (recorded 100 20 Positive 0.9%float))) =
  Ok (Monitoring.join_lines
        [ [Lit (String.append Monitoring.nl (Monitoring.bar 60))];
          [Lit "📊 MONITORING REPORT - MachineInnovators Inc."];
          [Lit (Monitoring.bar 60)];
          [Lit (String.append Monitoring.nl "⏰ Timestamp: ");
           Lit "2024-05-17 10:30:20"];
          [Lit "📈 Predizioni totali (finestra): "; Lit "20"];
          [Lit (String.append Monitoring.nl "🎯 PERFORMANCE METRICHE:")];
          [Lit "   • Confidenza media: ";
           Pct2 (Np.mean (repeat 0.9%float 20))];
          [Lit "   • Confidenza min/max: "; Pct2 0.9%float; Lit " / ";
           Pct2 0.9%float];
          [Lit (String.append Monitoring.nl "📊 DISTRIBUZIONE SENTIMENT:")];
          [Lit "   • "; Lit "Negative"; Lit ": "; Pct1 0%float];
          [Lit "   • "; Lit "Neutral"; Lit ": "; Pct1 0%float];
          [Lit "   • "; Lit "Positive"; Lit ": "; Pct1 1%float];
          [Lit (String.append Monitoring.nl "⚠️ ALERT ATTIVI: "); Lit "1"];
          [Lit "   ["; Lit "INFO"; Lit "] ";
           Lit "Drift rilevato nella distribuzione (";
           Pct2 (abs (1 - 0.33))%float; Lit ")"];
          [Lit (String.append Monitoring.nl "🔄 RETRAINING: ");
           Lit "Non necessario"];
          [Lit "   Motivo: "; Lit "Dati insufficienti per la valutazione"];
          [Lit (String.append Monitoring.nl (Monitoring.bar 60))] ]).
Proof. vm_compute. reflexivity. Qed.

(** X20: on a monitor of capacity at least 1 whose confidence buffer is
    empty, [get_summary_report] returns the same report whatever the log
    file, the thresholds and the baseline are: time "N/A", 0
    predictions, the three statistics as 0, no line of distribution, 0
    alerts, retraining not needed for lack of data.  The clock is not
    read. *)
Theorem get_summary_report_without_data m w :
  Monitoring.confidence_buffer m = [] ->
  0 < Monitoring.window_size m ->
  Monitoring.get_summary_report m w = (Ok cold_start_report, m, w).
Proof.
  intros Hc Hcap.
  assert (Em : Monitoring.get_current_metrics m w =
               (Ok (Monitoring.MetricsNoData "no_data"
                      "Nessun dato disponibile"), m, w)).
  { unfold Monitoring.get_current_metrics. cbv [bind get_self].
    rewrite Hc. reflexivity. }
  assert (Ea : Monitoring.check_alerts m w = (Ok [], m, w)).
  { apply check_alerts_below_floor. rewrite Hc. cbn. lia. }
  assert (Es : Monitoring.should_retrain m w =
               (Ok (false, [Lit "Dati insufficienti per la valutazione"]),
                m, w)).
  { unfold Monitoring.should_retrain. cbv [bind get_self].
    rewrite Hc. cbn [len List.length].
    destruct (Monitoring.window_size m); [lia|reflexivity]. }
  unfold Monitoring.get_summary_report. cbv [bind].
  rewrite Em, Ea, Es. reflexivity.
Qed.

Lemma get_summary_report_without_data_witness :
  Monitoring.confidence_buffer
    (Monitoring.new_monitor "test_monitoring.csv" 100) = [] /\
  0 < Monitoring.window_size
        (Monitoring.new_monitor "test_monitoring.csv" 100) /\
  Monitoring.get_summary_report
    (Monitoring.new_monitor "test_monitoring.csv" 100) ticking_world =
  (Ok cold_start_report,
   Monitoring.new_monitor "test_monitoring.csv" 100, ticking_world).
Proof.
  split; [reflexivity|]. split; [cbn; lia|].
  apply (get_summary_report_without_data
           (Monitoring.new_monitor "test_monitoring.csv" 100) ticking_world);
    [reflexivity|cbn; lia].
Defined.

(** ** Windows at the thresholds *)

(** The grouping of the additions decides the tests on windows whose
    mean is at a threshold.  The eight partial sums of 16 confidences of
    0.6 add up to a mean of exactly 0.6, so no low-confidence alert is
    returned.  50 confidences of 0.1 followed by 50 of 0.9 have mean
    0.5, which is not critical, and the same confidences in the other
    order have a mean just below 0.5, which is. *)
Example means_at_the_thresholds :
  Np.mean (repeat 0.6%float 16) = 0.6%float /\
  result_of (Monitoring.check_alerts (fst (recorded 100 16 Positive 0.6%float))
                                     ticking_world) =
    Ok [all_positive_drift] /\
  Np.mean (Monitoring.confidence_buffer (fst rising)) = 0.5%float /\
  result_of (Monitoring.should_retrain (fst rising) (snd rising)) =
    Ok (false, [Lit "Performance nella norma"]) /\
  Np.mean (Monitoring.confidence_buffer (fst falling)) =
    0.49999999999999994%float /\
  result_of (Monitoring.should_retrain (fst falling) (snd falling)) =
    Ok (true, [Lit "Confidenza critica: "; Pct2 0.49999999999999994%float]).
Proof. repeat split; vm_compute; reflexivity. Qed.
